(** * pypsa_academy: a shallow embedding of the notebook helpers

    The module [pypsa_academy.py] holds three helpers: the sheet-to-CSV
    converter [convert_excel_to_csv], the solver prober [solver_selected]
    and the interactive viewer [pypsa_viewer].  Each is embedded below as
    a function over an explicit description of the outside world (the
    component catalogue of the network library, the output directory, the
    workbook, the solver back ends, the live network), returning either a
    value or the Python exception that leaves the function. *)

From Stdlib Require Import Ascii.
From Stdlib Require String.
From stdpp Require Import base option list strings sorting gmap.

(** ** Python values shared by the three helpers *)

Module Py.

(** The exception classes that occur in the helpers.  All of them derive
    from [Exception]; process-level signals ([KeyboardInterrupt],
    [SystemExit]) are not failures of the modelled operations and are not
    represented. *)
Inductive exn : Type :=
| ValueError (msg : string)
| IndexError (msg : string)
| KeyError (key : string)
| UnboundLocalError (var : string)
| OSError (msg : string)
| LibraryError (msg : string).

(** [str(e)].  The text of [UnboundLocalError] is the one CPython 3.11
    and later produce; earlier interpreters say
    "local variable 'v' referenced before assignment". *)
Definition exn_message (e : exn) : string :=
  match e with
  | ValueError m | IndexError m | OSError m | LibraryError m => m
  | KeyError k => "'" +:+ k +:+ "'"
  | UnboundLocalError v =>
      "cannot access local variable '" +:+ v
        +:+ "' where it is not associated with a value"
  end.

(** What a call produces: a returned value or a raised exception. *)
Inductive outcome (A : Type) : Type :=
| Return (a : A)
| Raise (e : exn).
Arguments Return {A} a.
Arguments Raise {A} e.

Definition returns {A} (o : outcome A) : Prop := ∃ a, o = Return a.
Definition raises {A} (o : outcome A) : Prop := ∃ e, o = Raise e.

(** [s.startswith(p)] *)
Fixpoint startswith (p s : string) : bool :=
  match p, s with
  | EmptyString, _ => true
  | String a p', String b s' => if decide (a = b) then startswith p' s' else false
  | String _ _, EmptyString => false
  end.

(** [sub in s], also [Series.str.contains(sub)] on one cell when [sub]
    has no regular-expression metacharacter. *)
Fixpoint contains (sub s : string) : bool :=
  startswith sub s ||
  match s with
  | EmptyString => false
  | String _ s' => contains sub s'
  end.

(** [s.endswith(suffix)] *)
Fixpoint endswith (suffix s : string) : bool :=
  bool_decide (s = suffix) ||
  match s with
  | EmptyString => false
  | String _ s' => endswith suffix s'
  end.

(** [s.replace(old, new)] for a non-empty [old]: every non-overlapping
    occurrence of [old], scanning from the left, is replaced.  [skip]
    counts the characters of a matched occurrence still to be dropped. *)
Fixpoint replace_from (old new : string) (skip : nat) (s : string) : string :=
  match s with
  | EmptyString => EmptyString
  | String c s' =>
      match skip with
      | S k => replace_from old new k s'
      | O =>
          if startswith old s
          then new +:+ replace_from old new (String.length old - 1) s'
          else String c (replace_from old new 0 s')
      end
  end.

Definition replace (old new s : string) : string := replace_from old new 0 s.

(** [sep.join(l)] *)
Fixpoint join (sep : string) (l : list string) : string :=
  match l with
  | [] => ""
  | [x] => x
  | x :: rest => x +:+ sep +:+ join sep rest
  end.

(** [l.remove(x)]: drops the first occurrence only. *)
Fixpoint list_remove (x : string) (l : list string) : list string :=
  match l with
  | [] => []
  | y :: l' => if decide (y = x) then l' else y :: list_remove x l'
  end.

(** The first value filed under [name] in a list of named items. *)
Fixpoint assoc {A} (name : string) (l : list (string * A)) : option A :=
  match l with
  | [] => None
  | (k, v) :: l' => if decide (k = name) then Some v else assoc name l'
  end.

End Py.

Import Py.

(** ** The component catalogue of the network library

    [n.component_attrs[key]] is a table indexed by attribute name with,
    among others, the columns [status] (a text such as "Input (required)",
    "Input (optional)" or "Output") and [varying] (a boolean);
    [n.components[key]['list_name']] is the plural name of the component
    ("generators" for "Generator"). *)

Record attr_row : Type := AttrRow {
  attr_name : string;
  status : string;
  varying : bool
}.

Record component : Type := Component {
  key : string;
  list_name : string;
  attrs : list attr_row
}.

Abbreviation catalogue := (list component).

(** [df[df['status'].str.contains(io) & (df['varying'] == True)].index] *)
Definition varying_with_status (io : string) (c : component) : list string :=
  attr_name <$> filter (λ r, contains io (status r) && varying r = true) (attrs c).

(** [df[df['status'].str.contains(io)].index] *)
Definition with_status (io : string) (c : component) : list string :=
  attr_name <$> filter (λ r, contains io (status r) = true) (attrs c).

Module Converter.

(** *** The allow-list (lines 57-64) *)

(** [list(...) or [None]]: the list itself when it is non-empty. *)
Definition or_none (l : list string) : list (option string) :=
  match l with
  | [] => [None]
  | _ => Some <$> l
  end.

(** The element the comprehension produces for one [dict_value];
    [if dict_value] is false for [None] and for the empty string. *)
Definition sheet_name_of (c : component) (dict_value : option string) : string :=
  match dict_value with
  | Some a => if decide (a = "") then list_name c else list_name c +:+ "-" +:+ a
  | None => list_name c
  end.

Definition component_names (c : component) : list string :=
  sheet_name_of c <$> or_none (varying_with_status "Input" c).

(** The set comprehension [components]. *)
Definition components (n : catalogue) : gset string :=
  list_to_set (n ≫= component_names).

(** The allow-list as the specification words it: for every component
    type the bare list name, and one hyphenated name for each of its
    time-varying input attributes. *)
Definition spec_component_names (c : component) : list string :=
  list_name c :: ((λ a, list_name c +:+ "-" +:+ a) <$> varying_with_status "Input" c).

Definition spec_allow_list (n : catalogue) : gset string :=
  list_to_set (n ≫= spec_component_names).

(** The base name of a CSV file as the specification means it: the file
    name without its final four characters ".csv". *)
Definition spec_base_name (item : string) : string :=
  String.substring 0 (String.length item - 4) item.

(** *** The output directory and the workbook *)

(** An entry of the output directory: a regular file with its text, or
    a sub-directory. *)
Inductive entry : Type :=
| File (content : string)
| Subdir.

(** The directory as [os.listdir] enumerates it. *)
Abbreviation entries := (list (string * entry)).

(** What is found at [csv_folder_path] before the call. *)
Inductive node : Type :=
| Absent
| NotADirectory
| Directory (es : entries).

Definition dir_lookup (name : string) (es : entries) : option entry :=
  assoc name es.

Definition dir_delete (name : string) (es : entries) : entries :=
  filter (λ p, p.1 ≠ name) es.

Definition dir_write (name content : string) (es : entries) : entries :=
  match dir_lookup name es with
  | Some _ => (λ p, if decide (p.1 = name) then (name, File content) else p) <$> es
  | None => es ++ [(name, File content)]
  end.

(** [os.listdir(csv_folder_path)] *)
Definition listdir (es : entries) : list string := fst <$> es.

(** [os.makedirs(csv_folder_path, exist_ok=True)] *)
Definition makedirs (csv_folder_path : string) (nd : node) : outcome entries :=
  match nd with
  | Absent => Return []
  | Directory es => Return es
  | NotADirectory => Raise (OSError ("File exists: '" +:+ csv_folder_path +:+ "'"))
  end.

(** [os.remove(os.path.join(csv_folder_path, item))] *)
Definition os_remove (item : string) (es : entries) : outcome entries :=
  match dir_lookup item es with
  | Some (File _) => Return (dir_delete item es)
  | Some Subdir => Raise (OSError ("Is a directory: '" +:+ item +:+ "'"))
  | None => Raise (OSError ("No such file or directory: '" +:+ item +:+ "'"))
  end.

(** [df.to_csv(csv_file_path, index=False)] for a file of the folder. *)
Definition to_csv (name content : string) (es : entries) : outcome entries :=
  match dir_lookup name es with
  | Some Subdir => Raise (OSError ("Is a directory: '" +:+ name +:+ "'"))
  | _ => Return (dir_write name content es)
  end.

(** [os.path.join(a, b)] on a POSIX system. *)
Definition path_join (a b : string) : string :=
  if startswith "/" b then b
  else if bool_decide (a = "") || endswith "/" a then a +:+ b
  else a +:+ "/" +:+ b.

(** A sheet of the workbook: [xls.parse] yields a table, given here by
    the CSV text [to_csv] renders it to, or raises. *)
Inductive sheet_data : Type :=
| Table (csv_text : string)
| Broken (msg : string).

(** An opened workbook: its sheets in [xls.sheet_names] order.  Sheet
    names are unique and hold no path separator, as the workbook format
    requires. *)
Abbreviation workbook := (list (string * sheet_data)).

Definition sheet_names (xls : workbook) : list string := fst <$> xls.

(** [xls.parse(sheet_name)] *)
Definition parse (xls : workbook) (sheet_name : string) : outcome string :=
  match assoc sheet_name xls with
  | Some (Table t) => Return t
  | Some (Broken m) => Raise (LibraryError m)
  | None => Raise (ValueError ("Worksheet named '" +:+ sheet_name +:+ "' not found"))
  end.

(** The world a call of the converter runs in. *)
Record world : Type := World {
  schema : catalogue;            (* [pypsa.Network()] *)
  excel : outcome workbook;      (* what [pd.ExcelFile(excel_file_path)] does *)
  folder : node                  (* what is at [csv_folder_path] *)
}.

Inductive event : Type :=
| LogInfo (msg : string)
| LogError (msg : string)
| Print (msg : string).

(** The value the converter returns: the empty list or a path. *)
Inductive pyvalue : Type :=
| PyList (l : list string)
| PyStr (s : string).

(** *** [convert_sheet_to_csv] (lines 28-33) *)
Definition convert_sheet_to_csv (xls : workbook) (sheet_name csv_folder_path : string)
    (es : entries) : outcome string * entries * list event :=
  match parse xls sheet_name with
  | Raise e => (Raise e, es, [])
  | Return df =>
      let csv_file_path := path_join csv_folder_path (sheet_name +:+ ".csv") in
      match to_csv (sheet_name +:+ ".csv") df es with
      | Raise e => (Raise e, es, [])
      | Return es' =>
          (Return csv_file_path, es',
           [LogInfo ("Converted " +:+ sheet_name +:+ " to CSV.")])
      end
  end.

(** *** The deletion loop (lines 72-74) *)
Definition relevant (allow : gset string) (item : string) : bool :=
  endswith ".csv" item && bool_decide (replace ".csv" "" item ∈ allow).

Fixpoint clear_relevant (allow : gset string) (items : list string) (es : entries)
    : outcome unit * entries :=
  match items with
  | [] => (Return (), es)
  | item :: rest =>
      if relevant allow item
      then match os_remove item es with
           | Return es' => clear_relevant allow rest es'
           | Raise e => (Raise e, es)
           end
      else clear_relevant allow rest es
  end.

(** *** The worker pool (lines 78-82)

    Every selected sheet is submitted before any result is read, and
    leaving the [with] block waits for all of them: each task runs to its
    end whether or not another one raised.  The tasks write distinct
    files, so their interleaving does not show in the directory; events
    are recorded in submission order. *)
Definition submitted (allow : gset string) (xls : workbook) : list string :=
  filter (λ sheet_name, sheet_name ∈ allow) (sheet_names xls).

Fixpoint run_pool (xls : workbook) (csv_folder_path : string) (tasks : list string)
    (es : entries) : list (outcome string) * entries * list event :=
  match tasks with
  | [] => ([], es, [])
  | sheet_name :: rest =>
      let '(r, es1, ev1) := convert_sheet_to_csv xls sheet_name csv_folder_path es in
      let '(rs, es2, ev2) := run_pool xls csv_folder_path rest es1 in
      (r :: rs, es2, ev1 ++ ev2)
  end.

(** [for future in futures: created_csv_files.append(future.result())] *)
Fixpoint collect (created_csv_files : list string) (futures : list (outcome string))
    : outcome (list string) :=
  match futures with
  | [] => Return created_csv_files
  | Return p :: rest => collect (created_csv_files ++ [p]) rest
  | Raise e :: _ => Raise e
  end.

(** *** [convert_excel_to_csv] (lines 35-92) *)
Definition convert_excel_to_csv (w : world) (excel_file_path csv_folder_path : string)
    : outcome pyvalue * node * list event :=
  let components := components (schema w) in
  match makedirs csv_folder_path (folder w) with
  | Raise e => (Raise e, folder w, [])
  | Return es0 =>
      match clear_relevant components (listdir es0) es0 with
      | (Raise e, es1) => (Raise e, Directory es1, [])
      | (Return _, es1) =>
          match excel w with
          | Raise e =>
              (* [pd.ExcelFile] raised: the handler logs and starts to return
                 the empty list, then [finally] reads [xls], which was never
                 bound. *)
              (Raise (UnboundLocalError "xls"), Directory es1,
               [LogError ("Error converting Excel to CSV: " +:+ exn_message e)])
          | Return xls =>
              let '(futures, es2, ev) :=
                run_pool xls csv_folder_path (submitted components xls) es1 in
              match collect [] futures with
              | Raise e =>
                  (Return (PyList []), Directory es2,
                   ev ++ [LogError ("Error converting Excel to CSV: " +:+ exn_message e);
                          Print "Excel file is closed"])
              | Return created_csv_files =>
                  (Return (PyStr csv_folder_path), Directory es2,
                   ev ++ [Print "Excel file is closed";
                          LogInfo ("Conversion complete. CSV files are saved in '"
                                   +:+ csv_folder_path +:+ "'")])
              end
          end
      end
  end.

End Converter.

Module Prober.

Inductive event : Type :=
| Print (msg : string)
| ClearOutput
| Optimize (solver_name : string).   (* a call of [test_network.optimize] *)

(** The optimisation back ends of the runtime: what building the fixed
    three-bus network and calling [optimize(solver_name=...)] on it does.
    [optimize] returns a pair (status, termination condition). *)
Definition backend : Type := string → outcome (string * string).

(** *** [simple_network] (lines 96-132) *)
Definition simple_network (optimize : backend) (solver_name : string)
    : option (string * string) * list event :=
  match optimize solver_name with
  | Return solved => (Some solved, [Optimize solver_name; ClearOutput])
  | Raise e =>
      (None, [Optimize solver_name;
              Print ("Solver " +:+ solver_name +:+ " failed: " +:+ exn_message e)])
  end.

(** *** [find_solver] (lines 135-148) *)

(** The [for] loop: the first working solver, if the loop returns. *)
Fixpoint try_solvers (optimize : backend) (candidates : list string)
    : option string * list event :=
  match candidates with
  | [] => (None, [])
  | solver :: rest =>
      let '(result, ev) := simple_network optimize solver in
      match result with
      | Some _ =>
          (Some solver,
           Print ("Testing solver: " +:+ solver) :: ev
             ++ [Print ("Solver " +:+ solver +:+ " succeeded!")])
      | None =>
          let '(r, ev') := try_solvers optimize rest in
          (r, Print ("Testing solver: " +:+ solver) :: ev ++ ev')
      end
  end.

Definition no_solver_message (solver_options : list string) : string :=
  "No suitable solver found. Please install one of the solvers: "
    +:+ join ", " solver_options.

Definition find_solver_in (optimize : backend) (solver_options : list string)
    : outcome string * list event :=
  match try_solvers optimize solver_options with
  | (Some solver, ev) => (Return solver, ev)
  | (None, ev) => (Raise (ValueError (no_solver_message solver_options)), ev)
  end.

Definition solver_options : list string :=
  ["gurobi"; "cplex"; "mosek"; "highs"; "glpk"].

Definition find_solver (optimize : backend) : outcome string * list event :=
  find_solver_in optimize solver_options.

(** *** [solver_selected] (lines 94-158) *)
Definition solver_selected (optimize : backend) : outcome string * list event :=
  match find_solver optimize with
  | (Return solver, ev) =>
      (Return solver, ev ++ [Print ("Selected solver: " +:+ solver)])
  | (Raise (ValueError m), ev) =>
      (* [print(e)], then [return solver] reads a local never assigned *)
      (Raise (UnboundLocalError "solver"), ev ++ [Print m])
  | (Raise e, ev) => (Raise e, ev)
  end.

(** The solvers on which [optimize] was called, in call order. *)
Definition attempts (ev : list event) : list string :=
  omap (λ e, match e with Optimize s => Some s | _ => None end) ev.

(** The lines written to the console, in order. *)
Definition printed (ev : list event) : list string :=
  omap (λ e, match e with Print m => Some m | _ => None end) ev.

Definition names_all (candidates : list string) (msg : string) : Prop :=
  ∀ c, c ∈ candidates → contains c msg = true.

End Prober.

Module Viewer.

(** A table of the network: its row labels and its columns, each with
    one cell per row.  Column labels are unique.  Cells are kept as
    text. *)
Record DataFrame : Type := mkDataFrame {
  df_index : list string;
  df_columns : list (string * list string)
}.

Definition columns (df : DataFrame) : list string := fst <$> df_columns df.

(** [df.empty]: some axis has length 0. *)
Definition empty (df : DataFrame) : bool :=
  match df_index df, df_columns df with
  | [], _ | _, [] => true
  | _, _ => false
  end.

Fixpoint pick (names : list string) (cols : list (string * list string))
    : outcome (list (string * list string)) :=
  match names with
  | [] => Return []
  | a :: rest =>
      match assoc a cols with
      | None => Raise (KeyError a)
      | Some cells =>
          match pick rest cols with
          | Return r => Return ((a, cells) :: r)
          | Raise e => Raise e
          end
      end
  end.

(** [df[names]] for a list of column labels: a label that is not a
    column raises [KeyError]. *)
Definition getitem (df : DataFrame) (names : list string) : outcome DataFrame :=
  match pick names (df_columns df) with
  | Return cols => Return (mkDataFrame (df_index df) cols)
  | Raise e => Raise e
  end.

(** The live network: its component catalogue, the static table of
    each component ([getattr(network, list_name)]) and its time-indexed
    tables ([getattr(network, list_name + "_t")], a dictionary from
    variable name to table). *)
Record network : Type := Network {
  all_components : catalogue;
  tables : string → DataFrame;
  tables_t : string → gmap string DataFrame
}.

(** [network.generators] *)
Definition generators (net : network) : DataFrame := tables net "generators".

Inductive direction : Type := Input | Output.     (* [io_types] *)
Inductive kind : Type := static | varying.        (* [type_options] *)
Inductive view : Type := Plot | Table.            (* [view_type] *)

Definition io_name (d : direction) : string :=
  match d with Input => "Input" | Output => "Output" end.

(** One [go.Scatter] trace and the figure. *)
Record trace : Type := Scatter {
  tr_x : list string; tr_y : list string; tr_mode : string; tr_name : string
}.

Record figure : Type := Figure {
  fig_traces : list trace;
  fig_title : string; fig_xaxis_title : string; fig_yaxis_title : string
}.

Inductive event : Type :=
| ClearOutput
| Print (msg : string)
| DisplayTable (df : DataFrame)
| DisplaySelectors (options : list string) (value : string)
| DisplaySecondLevel (options : list string) (value : string) (radio : view)
| ShowFigure (fig : figure).

(** The shared dictionary [state]. *)
Record state : Type := State { return_file : option DataFrame }.

(** Lines 199-202. In line 199 [&] binds tighter than [==], so the mask
    is [(contains & varying) == True], the conjunction itself. *)
Definition varying_attributes (val : component) (io_data : direction) : list string :=
  varying_with_status (io_name io_data) val.

Definition static_attributes (val : component) (io_data : direction) : list string :=
  let l := with_status (io_name io_data) val in
  if decide ("name" ∈ l) then list_remove "name" l else l.

(** Line 257. *)
Definition valid_attributes (net : network) (val : component) (io_data : direction)
    : list string :=
  filter (λ attr, attr ∈ columns (generators net)) (static_attributes val io_data).

Definition no_valid_warning : string :=
  "Warning: None of the static attributes are found in network.generators columns".

(** *** [on_confirm_clicked] (lines 194-264)

    [val], [io_data] and [type_var] are the values of the three
    first-level widgets when the button is pressed; the dropdown only
    offers components of the network. *)
Definition on_confirm_clicked (net : network) (val : component) (io_data : direction)
    (type_var : kind) (st : state) : outcome unit * state * list event :=
  match type_var with
  | varying =>
      match varying_attributes val io_data with
      | [] => (Raise (IndexError "list index out of range"), st, [])
      | first :: _ =>
          (Return (), st,
           [DisplaySecondLevel (varying_attributes val io_data) first Plot])
      end
  | static =>
      let component_data := tables net (list_name val) in
      match valid_attributes net val io_data with
      | [] => (Return (), st, [ClearOutput; Print no_valid_warning])
      | valid =>
          match getitem component_data valid with
          | Raise e => (Raise e, st, [ClearOutput])
          | Return df => (Return (), State (Some df), [ClearOutput; DisplayTable df])
          end
      end
  end.

Definition plot (val : component) (new_selected_dropdown : string)
    (time_data : DataFrame) : figure :=
  Figure
    ((λ col, Scatter (df_index time_data) col.2 "lines" col.1) <$> df_columns time_data)
    (key val +:+ " " +:+ new_selected_dropdown +:+ " Time Series") "Time" "Value".

(** *** [on_new_confirm_clicked] (lines 221-242)

    [val] and [type_var] are the values captured when the second-level
    widgets were built. *)
Definition on_new_confirm_clicked (net : network) (val : component) (type_var : kind)
    (new_selected_dropdown : string) (new_selected_radio : view) (st : state)
    : outcome unit * state * list event :=
  match type_var with
  | static => (Return (), st, [ClearOutput])
  | varying =>
      match tables_t net (list_name val) !! new_selected_dropdown with
      | None => (Raise (KeyError new_selected_dropdown), st, [ClearOutput])
      | Some time_data =>
          match new_selected_radio with
          | Table =>
              (Return (), State (Some time_data), [ClearOutput; DisplayTable time_data])
          | Plot =>
              if empty time_data
              then (Return (), State None, [ClearOutput; Print "No data to plot"])
              else (Return (), State (Some time_data),
                    [ClearOutput;
                     ShowFigure (plot val new_selected_dropdown time_data)])
          end
      end
  end.

(** *** [pypsa_viewer] (lines 160-274) and a session on its widgets *)
Definition pypsa_viewer (net : network) : outcome state * list event :=
  let select_component := merge_sort String.le (key <$> all_components net) in
  match select_component with
  | [] => (Raise (IndexError "list index out of range"), [ClearOutput])
  | first :: _ =>
      (Return (State None), [ClearOutput; DisplaySelectors select_component first])
  end.

(** A press of one of the two buttons, with the widget values it reads. *)
Inductive click : Type :=
| Confirm (val : component) (io_data : direction) (type_var : kind)
| NewConfirm (val : component) (type_var : kind)
    (new_selected_dropdown : string) (new_selected_radio : view).

Definition handle (net : network) (c : click) (st : state)
    : outcome unit * state * list event :=
  match c with
  | Confirm val io_data type_var => on_confirm_clicked net val io_data type_var st
  | NewConfirm val type_var var v => on_new_confirm_clicked net val type_var var v st
  end.

(** The record the caller holds after the presses [cs]; an exception in
    a handler ends that handler only. *)
Fixpoint session (net : network) (cs : list click) (st : state) : state :=
  match cs with
  | [] => st
  | c :: rest => session net rest (handle net c st).1.2
  end.

End Viewer.

(** ** Concrete inputs used in the examples below *)

Module Examples.
Import Converter.

(** A cut of the library's catalogue: buses have no time-varying input,
    generators and loads have one each. *)
Definition Bus : component :=
  Component "Bus" "buses"
    [ AttrRow "name" "Input (required)" false;
      AttrRow "v_nom" "Input (optional)" false;
      AttrRow "carrier" "Input (optional)" false;
      AttrRow "p" "Output" true ].

Definition Generator : component :=
  Component "Generator" "generators"
    [ AttrRow "name" "Input (required)" false;
      AttrRow "bus" "Input (required)" false;
      AttrRow "carrier" "Input (optional)" false;
      AttrRow "p_nom" "Input (optional)" false;
      AttrRow "p_max_pu" "Input (optional)" true;
      AttrRow "p" "Output" true ].

Definition Load : component :=
  Component "Load" "loads"
    [ AttrRow "name" "Input (required)" false;
      AttrRow "bus" "Input (required)" false;
      AttrRow "p_set" "Input (optional)" true ].

Definition teaching_catalogue : catalogue := [Bus; Generator; Load].

Definition teaching_workbook : workbook :=
  [ ("buses", Table "name,v_nom");
    ("generators", Table "name,bus,p_nom");
    ("generators-p_max_pu", Table "snapshot,Gen1");
    ("notes", Table "remark") ].

(** A fresh output folder. *)
Definition fresh_world : world :=
  World teaching_catalogue (Return teaching_workbook) Absent.

(** An output folder that already holds files. *)
Definition used_folder : entries :=
  [ ("bu.csvses.csv", File "kept by hand");
    ("buses.csv", File "name,v_nom");
    ("notes.csv", File "remark");
    ("readme.txt", File "about") ].

Definition used_world : world :=
  World teaching_catalogue (Return teaching_workbook) (Directory used_folder).

(** An output folder in which [buses.csv] is a directory. *)
Definition blocked_world : world :=
  World teaching_catalogue (Return teaching_workbook)
    (Directory [("buses.csv", Subdir)]).

(** A workbook whose sheet [buses] cannot be parsed. *)
Definition broken_world : world :=
  World teaching_catalogue
    (Return [("buses", Broken "corrupt sheet");
             ("generators-p_max_pu", Table "snapshot,Gen1")])
    Absent.

(** No workbook at the given path. *)
Definition missing_world : world :=
  World teaching_catalogue
    (Raise (OSError "No such file or directory: 'missing.xlsx'")) Absent.

(** Back ends: none installed; only B; only highs. *)
Definition no_backend : Prober.backend :=
  λ _, Raise (LibraryError "not installed").

Definition backend_B : Prober.backend :=
  λ s, if decide (s = "A") then Raise (LibraryError "not installed")
       else Return ("ok", "optimal").

Definition backend_highs : Prober.backend :=
  λ s, if decide (s = "highs") then Return ("ok", "optimal")
       else Raise (LibraryError "not installed").

(** A live network over the same catalogue.  Its bus table has no
    [carrier] column; no generator sets [p_max_pu], so that series has
    the snapshots as rows and no column. *)
Definition snapshots : list string :=
  ["2024-01-01 00:00"; "2024-01-01 01:00"; "2024-01-01 02:00"].

Definition buses_table : Viewer.DataFrame :=
  Viewer.mkDataFrame ["Bus1"; "Bus2"; "Bus3"] [("v_nom", ["1.0"; "1.0"; "1.0"])].

Definition generators_table : Viewer.DataFrame :=
  Viewer.mkDataFrame ["Gen1"; "Gen2"]
    [("bus", ["Bus1"; "Bus2"]); ("carrier", ["AC"; "AC"]); ("p_nom", ["30"; "40"])].

Definition loads_table : Viewer.DataFrame :=
  Viewer.mkDataFrame ["Load1"] [("bus", ["Bus3"])].

Definition loads_p_set : Viewer.DataFrame :=
  Viewer.mkDataFrame snapshots [("Load1", ["10"; "15"; "20"])].

Definition generators_p_max_pu : Viewer.DataFrame :=
  Viewer.mkDataFrame snapshots [].

Definition teaching_network : Viewer.network :=
  Viewer.Network teaching_catalogue
    (λ name, if decide (name = "buses") then buses_table
             else if decide (name = "generators") then generators_table
             else loads_table)
    (λ name, if decide (name = "loads") then {[ "p_set" := loads_p_set ]}
             else if decide (name = "generators")
                  then {[ "p_max_pu" := generators_p_max_pu ]}
             else ∅).

End Examples.

(** ** Observations used in the statements below *)

(** What the output location holds under [name]: nothing unless the
    location is a directory. *)
Definition node_lookup (name : string) (nd : Converter.node) : option Converter.entry :=
  match nd with
  | Converter.Directory es => Converter.dir_lookup name es
  | _ => None
  end.

(** The file a sheet is written to. *)
Definition csv_name (sheet_name : string) : string := sheet_name +:+ ".csv".


(** A table that comes from the network: a selection of columns of the
    static table of one of its components, or one of its time series. *)
Definition from_network (net : Viewer.network) (df : Viewer.DataFrame) : Prop :=
  (∃ val names, val ∈ Viewer.all_components net ∧
       Viewer.getitem (Viewer.tables net (list_name val)) names = Return df) ∨
  (∃ val var, val ∈ Viewer.all_components net ∧
       Viewer.tables_t net (list_name val) !! var = Some df).

(** The shared record holds nothing or a table of the network. *)
Definition record_ok (net : Viewer.network) (st : Viewer.state) : Prop :=
  ∀ df, Viewer.return_file st = Some df → from_network net df.

(** The component a press reads from its dropdown. *)
Definition click_component (c : Viewer.click) : component :=
  match c with
  | Viewer.Confirm val _ _ => val
  | Viewer.NewConfirm val _ _ _ => val
  end.

Section stages.
Import Converter.

(** The five ways a call of the converter can go, each with the value,
    the folder and the events it ends with. *)
Inductive run (w : world) (excel_file_path csv_folder_path : string)
    : outcome pyvalue * node * list event → Prop :=
| run_no_folder e :
    makedirs csv_folder_path (folder w) = Raise e →
    run w excel_file_path csv_folder_path (Raise e, folder w, [])
| run_blocked es0 es1 e :
    makedirs csv_folder_path (folder w) = Return es0 →
    clear_relevant (components (schema w)) (listdir es0) es0 = (Raise e, es1) →
    run w excel_file_path csv_folder_path (Raise e, Directory es1, [])
| run_unopened es0 es1 e :
    makedirs csv_folder_path (folder w) = Return es0 →
    clear_relevant (components (schema w)) (listdir es0) es0 = (Return (), es1) →
    excel w = Raise e →
    run w excel_file_path csv_folder_path
      (Raise (UnboundLocalError "xls"), Directory es1,
       [LogError ("Error converting Excel to CSV: " +:+ exn_message e)])
| run_sheet_failed es0 es1 xls e :
    makedirs csv_folder_path (folder w) = Return es0 →
    clear_relevant (components (schema w)) (listdir es0) es0 = (Return (), es1) →
    excel w = Return xls →
    let pool := run_pool xls csv_folder_path
                  (submitted (components (schema w)) xls) es1 in
    collect [] pool.1.1 = Raise e →
    run w excel_file_path csv_folder_path
      (Return (PyList []), Directory pool.1.2,
       pool.2 ++ [LogError ("Error converting Excel to CSV: " +:+ exn_message e);
                  Print "Excel file is closed"])
| run_done es0 es1 xls files :
    makedirs csv_folder_path (folder w) = Return es0 →
    clear_relevant (components (schema w)) (listdir es0) es0 = (Return (), es1) →
    excel w = Return xls →
    let pool := run_pool xls csv_folder_path
                  (submitted (components (schema w)) xls) es1 in
    collect [] pool.1.1 = Return files →
    run w excel_file_path csv_folder_path
      (Return (PyStr csv_folder_path), Directory pool.1.2,
       pool.2 ++ [Print "Excel file is closed";
                  LogInfo ("Conversion complete. CSV files are saved in '"
                           +:+ csv_folder_path +:+ "'")]).

End stages.

(** * Properties *)

(** ** Text helpers *)

Section text.
Implicit Types (c s t p : string).

Lemma app_cons a s t : String a s +:+ t = String a (s +:+ t).
Proof. reflexivity. Qed.

Lemma contains_unfold c s :
  contains c s =
    startswith c s || match s with EmptyString => false | String _ s' => contains c s' end.
Proof. by destruct s. Qed.

Lemma startswith_app_l c s t : startswith c s = true → startswith c (s +:+ t) = true.
Proof.
  revert s. induction c as [|a c IH]; intros [|b s]; simpl; try done.
  case_decide; [apply IH | done].
Qed.

Lemma startswith_refl c : startswith c c = true.
Proof. induction c as [|a c IH]; simpl; [done|]. by rewrite decide_True. Qed.

Lemma contains_refl c : contains c c = true.
Proof. by rewrite contains_unfold, startswith_refl. Qed.

Lemma contains_app_l c s t : contains c s = true → contains c (s +:+ t) = true.
Proof.
  induction s as [|a s IH].
  - rewrite contains_unfold. rewrite orb_false_r. intros H.
    destruct c; [|done]. by destruct t.
  - rewrite app_cons, !(contains_unfold c (String _ _)).
    intros [H|H]%orb_true_iff; apply orb_true_iff.
    + left. by apply (startswith_app_l c (String a s) t).
    + right. by apply IH.
Qed.

Lemma contains_app_r c p s : contains c s = true → contains c (p +:+ s) = true.
Proof.
  intros H. induction p as [|a p IH]; [done|].
  rewrite app_cons, contains_unfold. apply orb_true_iff. by right.
Qed.

Lemma contains_join sep c (l : list string) :
  c ∈ l → contains c (join sep l) = true.
Proof.
  induction l as [|x l IH]; [by intros ?%elem_of_nil|].
  intros [->|Hin]%elem_of_cons.
  - destruct l as [|y l]; simpl; [apply contains_refl|].
    apply contains_app_l, contains_refl.
  - destruct l as [|y l]; [by apply elem_of_nil in Hin|].
    change (join sep (x :: y :: l)) with (x +:+ sep +:+ join sep (y :: l)).
    by apply contains_app_r, contains_app_r, IH.
Qed.
Lemma endswith_refl s : endswith s s = true.
Proof.
  destruct s; cbn [endswith]; (rewrite bool_decide_eq_true_2; [done | reflexivity]).
Qed.

Lemma endswith_app p s : endswith s (p +:+ s) = true.
Proof.
  induction p as [|a p IH]; [apply endswith_refl|].
  rewrite app_cons. simpl. rewrite IH. apply orb_true_r.
Qed.

Lemma length_app s t : String.length (s +:+ t) = String.length s + String.length t.
Proof. induction s as [|a s IH]; [done|]. rewrite app_cons. simpl. by rewrite IH. Qed.

(** ".csv" has no proper suffix that is also a prefix of it, so appending
    it creates no occurrence that starts inside [b]. *)
Lemma startswith_csv_app b :
  b ≠ "" → startswith ".csv" b = false → startswith ".csv" (b +:+ ".csv") = false.
Proof.
  destruct b as [|c1 [|c2 [|c3 [|c4 b]]]]; [done|..]; intros _; simpl;
    repeat case_decide; subst; done.
Qed.

(** On a name in which ".csv" occurs as the extension only, [replace]
    does take the extension off. *)
Lemma replace_csv_plain b :
  contains ".csv" b = false → replace ".csv" "" (b +:+ ".csv") = b.
Proof.
  unfold replace. induction b as [|c b IH]; [done|].
  rewrite contains_unfold. intros [Hs Hc]%orb_false_iff.
  pose proof (startswith_csv_app (String c b)) as Hc'.
  rewrite app_cons in *. cbn [replace_from]. rewrite Hc' by done.
  by rewrite IH.
Qed.

End text.

(** ** The sheet-to-CSV converter *)

Section converter.
Import Converter.
Implicit Types (n : catalogue) (allow : gset string) (es : entries).

Lemma elem_of_components n x :
  x ∈ components n ↔ ∃ c, c ∈ n ∧ x ∈ component_names c.
Proof.
  unfold components. rewrite elem_of_list_to_set, list_elem_of_bind.
  split; intros (c & ? & ?); by exists c.
Qed.

(** The names the code computes for a component: its bare list name
    only when it has no time-varying input attribute. *)
Lemma elem_of_component_names c x :
  x ∈ component_names c ↔
    (varying_with_status "Input" c = [] ∧ x = list_name c) ∨
    (∃ a, a ∈ varying_with_status "Input" c ∧ x = sheet_name_of c (Some a)).
Proof.
  unfold component_names, or_none.
  destruct (varying_with_status "Input" c) as [|a0 l] eqn:Hv.
  - simpl. rewrite list_elem_of_singleton. split.
    + intros ->. by left.
    + intros [[_ ->]|(a & Ha & _)]; [done|]. by apply elem_of_nil in Ha.
  - rewrite <- list_fmap_compose, list_elem_of_fmap. split.
    + intros (a & -> & Ha). right. by exists a.
    + intros [[? _]|(a & Ha & ->)]; [done|]. by exists a.
Qed.

(** Every name of the computed allow-list is one the specification
    lists. *)
Lemma components_subseteq_spec n : components n ⊆ spec_allow_list n.
Proof.
  intros x (c & Hc & Hx)%elem_of_components.
  unfold spec_allow_list. rewrite elem_of_list_to_set, list_elem_of_bind.
  exists c. split; [|done]. unfold spec_component_names.
  apply elem_of_component_names in Hx as [[_ ->]|(a & Ha & ->)]; [by left|].
  simpl. case_decide; [by left|]. right. apply list_elem_of_fmap. by exists a.
Qed.

(** A sheet is handed to the worker pool exactly when the workbook has
    it and the computed allow-list holds its name. *)
Lemma elem_of_submitted allow xls x :
  x ∈ submitted allow xls ↔ x ∈ sheet_names xls ∧ x ∈ allow.
Proof. unfold submitted. rewrite list_elem_of_filter. split; intros [? ?]; done. Qed.

(** *** The deletion step *)

Lemma dir_lookup_delete name item es :
  dir_lookup name (dir_delete item es)
    = if decide (name = item) then None else dir_lookup name es.
Proof.
  unfold dir_lookup, dir_delete. induction es as [|[k v] es IH]; simpl.
  - by case_decide.
  - rewrite filter_cons. simpl. destruct (decide (k ≠ item)) as [Hk|Hk].
    + simpl. destruct (decide (k = name)) as [->|_].
      * by rewrite decide_False.
      * apply IH.
    + apply dec_stable in Hk as ->. rewrite IH.
      destruct (decide (name = item)) as [->|?]; [done|].
      by rewrite decide_False.
Qed.

Lemma os_remove_Return item es es' :
  os_remove item es = Return es' → es' = dir_delete item es.
Proof.
  unfold os_remove.
  destruct (dir_lookup item es) as [[?|]|]; [by intros [= <-] | done | done].
Qed.

(** What the loop has done when it ends without an exception: of the
    listed entries, those ending in ".csv" whose name with every
    occurrence of ".csv" taken out is in the allow-list are gone; all
    others are as before. *)
Lemma clear_relevant_lookup allow items es es' name :
  clear_relevant allow items es = (Return (), es') →
  dir_lookup name es' =
    if decide (name ∈ items ∧ relevant allow name = true) then None
    else dir_lookup name es.
Proof.
  revert es. induction items as [|item rest IH]; intros es; simpl.
  - by intros [= <-].
  - destruct (relevant allow item) eqn:Hrel.
    + destruct (os_remove item es) as [es1|e] eqn:Hrm; [|done].
      apply os_remove_Return in Hrm as ->.
      intros ->%IH. rewrite dir_lookup_delete.
      destruct (decide (name = item)) as [->|Hne].
      * rewrite (decide_True (P := item ∈ item :: rest ∧ _)); [|by split; [left|]].
        by case_decide.
      * apply decide_ext. rewrite elem_of_cons. tauto.
    + intros ->%IH. apply decide_ext. rewrite elem_of_cons.
      split; [tauto|]. intros [[->|?] ?]; [congruence|done].
Qed.

(** Frame of the deletion loop, with or without an exception: an entry
    that is not [relevant] is never touched. *)
Lemma clear_relevant_keeps allow items es name :
  relevant allow name = false →
  dir_lookup name (clear_relevant allow items es).2 = dir_lookup name es.
Proof.
  intros Hname. revert es. induction items as [|item rest IH]; intros es; simpl.
  - done.
  - destruct (relevant allow item) eqn:Hrel; [|apply IH].
    destruct (os_remove item es) as [es1|e] eqn:Hrm; [|done].
    apply os_remove_Return in Hrm as ->. rewrite IH, dir_lookup_delete.
    rewrite decide_False; [done|]. intros ->. congruence.
Qed.

Lemma spec_base_name_app b : spec_base_name (b +:+ ".csv") = b.
Proof.
  unfold spec_base_name. rewrite length_app. simpl String.length.
  replace (String.length b + 4 - 4) with (String.length b) by lia.
  induction b as [|a b IH]; [done|]. rewrite app_cons. simpl. by rewrite IH.
Qed.

(** On such a name the test of the loop is the specified one: the file
    is a CSV and its base name is in the allow-list. *)
Lemma relevant_plain allow b :
  contains ".csv" b = false →
  relevant allow (b +:+ ".csv")
    = bool_decide (spec_base_name (b +:+ ".csv") ∈ allow).
Proof.
  intros Hb. unfold relevant.
  by rewrite endswith_app, replace_csv_plain, spec_base_name_app.
Qed.

(** *** The worker pool and the return value *)

Lemma collect_Raise created futures e :
  Raise e ∈ futures →
  ∃ e', collect created futures = Raise e' ∧ Raise e' ∈ futures.
Proof.
  revert created. induction futures as [|[p|e0] futures IH]; intros created.
  - by intros ?%elem_of_nil.
  - intros [?|Hin]%elem_of_cons; [done|]. simpl.
    destruct (IH (created ++ [p]) Hin) as (e' & -> & ?).
    exists e'. split; [done|]. by right.
  - intros _. exists e0. split; [done|]. by left.
Qed.

Lemma collect_Return created futures files :
  collect created futures = Return files → ∀ e, Raise e ∉ futures.
Proof.
  intros Hc e Hin. destruct (collect_Raise created futures e Hin) as (e' & He' & _).
  congruence.
Qed.

(** The converter never returns a list with a created file in it. *)
Lemma convert_never_partial_list w excel_file_path csv_folder_path l :
  (convert_excel_to_csv w excel_file_path csv_folder_path).1.1 = Return (PyList l) →
  l = [].
Proof.
  unfold convert_excel_to_csv.
  destruct (makedirs _ _) as [es0|?]; [|done].
  destruct (clear_relevant _ _ _) as [[[]|?] es1]; [|done].
  destruct (excel w) as [xls|?]; [|done].
  destruct (run_pool _ _ _ _) as [[futures es2] ev].
  destruct (collect [] futures); simpl; congruence.
Qed.

(** When nothing raises, the folder path comes back. *)
Lemma convert_success w excel_file_path csv_folder_path es0 es1 xls files :
  makedirs csv_folder_path (folder w) = Return es0 →
  clear_relevant (components (schema w)) (listdir es0) es0 = (Return (), es1) →
  excel w = Return xls →
  collect [] (run_pool xls csv_folder_path
                (submitted (components (schema w)) xls) es1).1.1 = Return files →
  (convert_excel_to_csv w excel_file_path csv_folder_path).1.1
    = Return (PyStr csv_folder_path).
Proof.
  unfold convert_excel_to_csv. intros -> -> ->.
  destruct (run_pool _ _ _ _) as [[futures es2] ev]. simpl. by intros ->.
Qed.

(** A workbook that cannot be opened: the handler's empty list is lost
    to the [UnboundLocalError] of the [finally] block. *)
Lemma convert_unopened w excel_file_path csv_folder_path es0 es1 e :
  makedirs csv_folder_path (folder w) = Return es0 →
  clear_relevant (components (schema w)) (listdir es0) es0 = (Return (), es1) →
  excel w = Raise e →
  (convert_excel_to_csv w excel_file_path csv_folder_path).1.1
    = Raise (UnboundLocalError "xls").
Proof. unfold convert_excel_to_csv. by intros -> -> ->. Qed.

End converter.

Ltac by_computation := apply (bool_decide_unpack _); vm_compute; exact I.

(** C1: the allow-list is meant to hold, for every component type, its
    bare list name and one hyphenated name per time-varying input
    attribute, and a sheet is converted exactly when its name is in it.
    On [teaching_catalogue] the set the code computes lacks "generators",
    which the specified set holds: [or [None]] adds the bare name only for
    a component without time-varying input.  The sheet "generators" of the
    workbook is not handed to the pool and no "generators.csv" appears. *)
Theorem components_omits_list_name :
  "generators" ∈ Converter.spec_allow_list Examples.teaching_catalogue ∧
  ("generators" ∉ Converter.components Examples.teaching_catalogue) ∧
  "generators" ∈ Converter.sheet_names Examples.teaching_workbook ∧
  ("generators" ∉ Converter.submitted
                    (Converter.components Examples.teaching_catalogue)
                    Examples.teaching_workbook) ∧
  Converter.convert_excel_to_csv Examples.fresh_world "model.xlsx" "csv"
    = (Return (Converter.PyStr "csv"),
       Converter.Directory
         [("buses.csv", Converter.File "name,v_nom");
          ("generators-p_max_pu.csv", Converter.File "snapshot,Gen1")],
       [Converter.LogInfo "Converted buses to CSV.";
        Converter.LogInfo "Converted generators-p_max_pu to CSV.";
        Converter.Print "Excel file is closed";
        Converter.LogInfo "Conversion complete. CSV files are saved in 'csv'"]).
Proof.
  split; [by_computation|]. split; [by_computation|].
  split; [by_computation|]. split; [by_computation|].
  vm_compute. reflexivity.
Qed.

(** C2, as stated, fails: an exception raised while a matching CSV is
    deleted is not caught.  With a directory named "buses.csv" in the
    output folder, [os.remove] raises and the error leaves the converter. *)
Lemma convert_propagates_remove_error :
  Converter.os_remove "buses.csv" [("buses.csv", Converter.Subdir)]
    = Raise (OSError "Is a directory: 'buses.csv'") ∧
  (Converter.convert_excel_to_csv Examples.blocked_world "model.xlsx" "csv").1.1
    = Raise (OSError "Is a directory: 'buses.csv'") ∧
  ¬ returns (Converter.convert_excel_to_csv Examples.blocked_world
               "model.xlsx" "csv").1.1.
Proof.
  split; [reflexivity|]. split; [reflexivity|].
  intros [v Hv]. vm_compute in Hv. discriminate.
Qed.

(** C2, amended: the handler covers the worker pool only.  Once the output
    folder is prepared and the workbook is open, an exception held by any
    future is caught: it is logged, the workbook is closed and the empty
    list is returned.  An exception raised while the folder is created or
    while matching CSVs are deleted is outside the [try] and reaches the
    caller. *)
Theorem convert_exception_handling (w : Converter.world)
    (excel_file_path csv_folder_path : string) :
  let allow := Converter.components (Converter.schema w) in
  let result := Converter.convert_excel_to_csv w excel_file_path csv_folder_path in
  (∀ e, Converter.makedirs csv_folder_path (Converter.folder w) = Raise e →
        result.1.1 = Raise e) ∧
  (∀ es0 es1 e,
     Converter.makedirs csv_folder_path (Converter.folder w) = Return es0 →
     Converter.clear_relevant allow (Converter.listdir es0) es0 = (Raise e, es1) →
     result.1.1 = Raise e) ∧
  (∀ es0 es1 xls e,
     Converter.makedirs csv_folder_path (Converter.folder w) = Return es0 →
     Converter.clear_relevant allow (Converter.listdir es0) es0 = (Return (), es1) →
     Converter.excel w = Return xls →
     Raise e ∈ (Converter.run_pool xls csv_folder_path
                  (Converter.submitted allow xls) es1).1.1 →
     result.1.1 = Return (Converter.PyList []) ∧
     (∃ e', Raise e' ∈ (Converter.run_pool xls csv_folder_path
                          (Converter.submitted allow xls) es1).1.1 ∧
            Converter.LogError ("Error converting Excel to CSV: " +:+ exn_message e')
              ∈ result.2) ∧
     Converter.Print "Excel file is closed" ∈ result.2).
Proof.
  intros allow result. subst allow result. unfold Converter.convert_excel_to_csv.
  split; [|split].
  - by intros e ->.
  - by intros es0 es1 e -> ->.
  - intros es0 es1 xls e -> -> ->.
    destruct (Converter.run_pool _ _ _ _) as [[futures es2] ev]. simpl.
    intros Hin. destruct (collect_Raise [] futures e Hin) as (e' & -> & Hin').
    simpl. split; [done|]. split.
    + exists e'. split; [done|]. apply elem_of_app. right. by left.
    + apply elem_of_app. right. right. by left.
Qed.

(** A workbook whose sheet "buses" cannot be parsed: the empty list comes
    back and the workbook is closed. *)
Lemma convert_exception_handling_witness :
  (Converter.convert_excel_to_csv Examples.broken_world "model.xlsx" "csv").1.1
    = Return (Converter.PyList []) ∧
  Converter.Print "Excel file is closed"
    ∈ (Converter.convert_excel_to_csv Examples.broken_world "model.xlsx" "csv").2.
Proof.
  destruct (convert_exception_handling Examples.broken_world "model.xlsx" "csv")
    as (_ & _ & H).
  destruct (H [] [] [("buses", Converter.Broken "corrupt sheet");
                     ("generators-p_max_pu", Converter.Table "snapshot,Gen1")]
              (LibraryError "corrupt sheet")) as (Hr & _ & Hc).
  - reflexivity.
  - reflexivity.
  - reflexivity.
  - vm_compute. left.
  - split; [exact Hr | exact Hc].
Defined.

(** C7: on success the converter returns the output folder path, on
    failure the empty list.  With no workbook at the given path, the most
    common failure, the code returns nothing: the handler logs the error
    and starts to return the empty list, and the [finally] block then
    reads [xls], which was never bound, so an [UnboundLocalError] leaves
    the function. *)
Theorem convert_missing_workbook_raises :
  Converter.convert_excel_to_csv Examples.missing_world "missing.xlsx" "csv"
    = (Raise (UnboundLocalError "xls"),
       Converter.Directory [],
       [Converter.LogError
          "Error converting Excel to CSV: No such file or directory: 'missing.xlsx'"]).
Proof. vm_compute. reflexivity. Qed.

(** C8: the deletion step is meant to remove the CSV files whose base
    name is in the allow-list and nothing else.  The file "bu.csvses.csv"
    ends in ".csv" and its base name "bu.csvses" is not in the allow-list,
    yet the step removes it: [item.replace(".csv", "")] takes out every
    occurrence of ".csv", not only the extension, and yields "buses". *)
Theorem clear_deletes_non_matching_csv :
  endswith ".csv" "bu.csvses.csv" = true ∧
  Converter.spec_base_name "bu.csvses.csv" = "bu.csvses" ∧
  ("bu.csvses" ∉ Converter.components Examples.teaching_catalogue) ∧
  replace ".csv" "" "bu.csvses.csv" = "buses" ∧
  Converter.dir_lookup "bu.csvses.csv" Examples.used_folder
    = Some (Converter.File "kept by hand") ∧
  Converter.clear_relevant (Converter.components Examples.teaching_catalogue)
      (Converter.listdir Examples.used_folder) Examples.used_folder
    = (Return (),
       [("notes.csv", Converter.File "remark");
        ("readme.txt", Converter.File "about")]) ∧
  (Converter.convert_excel_to_csv Examples.used_world "model.xlsx" "csv").1
    = (Return (Converter.PyStr "csv"),
       Converter.Directory
         [("notes.csv", Converter.File "remark");
          ("readme.txt", Converter.File "about");
          ("buses.csv", Converter.File "name,v_nom");
          ("generators-p_max_pu.csv", Converter.File "snapshot,Gen1")]).
Proof.
  split; [reflexivity|]. split; [reflexivity|]. split; [by_computation|].
  split; [reflexivity|]. split; [reflexivity|].
  split; vm_compute; reflexivity.
Qed.

(** ** The solver prober *)

Section prober.
Import Prober.
Variable optimize : backend.

Lemma attempts_app ev1 ev2 : attempts (ev1 ++ ev2) = attempts ev1 ++ attempts ev2.
Proof. apply omap_app. Qed.

Lemma printed_app ev1 ev2 : printed (ev1 ++ ev2) = printed ev1 ++ printed ev2.
Proof. apply omap_app. Qed.

(** A failing candidate is attempted once and the loop moves on. *)
Lemma try_solvers_skip solver rest e :
  optimize solver = Raise e →
  (try_solvers optimize (solver :: rest)).1 = (try_solvers optimize rest).1 ∧
  attempts (try_solvers optimize (solver :: rest)).2
    = solver :: attempts (try_solvers optimize rest).2.
Proof.
  intros He. simpl. unfold simple_network. rewrite He.
  destruct (try_solvers optimize rest) as [r ev']. simpl. done.
Qed.

(** A working candidate ends the loop: nothing after it is attempted. *)
Lemma try_solvers_stop solver rest solved :
  optimize solver = Return solved →
  (try_solvers optimize (solver :: rest)).1 = Some solver ∧
  attempts (try_solvers optimize (solver :: rest)).2 = [solver].
Proof.
  intros Hs. simpl. unfold simple_network. rewrite Hs. simpl.
  done.
Qed.

Lemma try_solvers_first pre solver post :
  (∀ c, c ∈ pre → raises (optimize c)) →
  returns (optimize solver) →
  (try_solvers optimize (pre ++ solver :: post)).1 = Some solver ∧
  attempts (try_solvers optimize (pre ++ solver :: post)).2 = pre ++ [solver].
Proof.
  intros Hpre [solved Hs]. induction pre as [|c pre IH].
  - by apply (try_solvers_stop _ _ solved).
  - destruct (Hpre c) as [e He]; [by left|].
    change ((c :: pre) ++ solver :: post) with (c :: (pre ++ solver :: post)).
    destruct (try_solvers_skip c (pre ++ solver :: post) e He) as [-> ->].
    destruct IH as [-> ->]; [|done].
    intros c' Hc'. apply Hpre. by right.
Qed.

Lemma try_solvers_none candidates :
  (∀ c, c ∈ candidates → raises (optimize c)) →
  (try_solvers optimize candidates).1 = None ∧
  attempts (try_solvers optimize candidates).2 = candidates.
Proof.
  induction candidates as [|c l IH]; intros Hall; [done|].
  destruct (Hall c) as [e He]; [by left|].
  destruct (try_solvers_skip c l e He) as [-> ->].
  destruct IH as [-> ->]; [|done].
  intros c' Hc'. apply Hall. by right.
Qed.

Lemma find_solver_in_fst l :
  (find_solver_in optimize l).1 =
    match (try_solvers optimize l).1 with
    | Some solver => Return solver
    | None => Raise (ValueError (no_solver_message l))
    end.
Proof. unfold find_solver_in. by destruct (try_solvers optimize l) as [[?|] ?]. Qed.

Lemma find_solver_in_snd l :
  (find_solver_in optimize l).2 = (try_solvers optimize l).2.
Proof. unfold find_solver_in. by destruct (try_solvers optimize l) as [[?|] ?]. Qed.

Lemma names_all_message l : names_all l (no_solver_message l).
Proof. intros c Hc. by apply contains_app_r, contains_join. Qed.

End prober.

(** C4: the prober tries the candidates 'gurobi', 'cplex', 'mosek', 'highs',
    'glpk' in this order and returns the first one whose solve does not
    raise; no candidate after it is attempted.  For a list [pre ++ s :: post]
    whose candidates in [pre] all fail while [s] succeeds, the result is [s]
    and the back end was called on [pre ++ [s]] exactly, in that order; so
    it is for [solver_selected] on the fixed list. *)
Theorem prober_first_success (optimize : Prober.backend)
    (l pre post : list string) (s : string) :
  l = pre ++ s :: post →
  (∀ c, c ∈ pre → raises (optimize c)) →
  returns (optimize s) →
  Prober.find_solver optimize
    = Prober.find_solver_in optimize ["gurobi"; "cplex"; "mosek"; "highs"; "glpk"] ∧
  (Prober.find_solver_in optimize l).1 = Return s ∧
  Prober.attempts (Prober.find_solver_in optimize l).2 = pre ++ [s] ∧
  (l = Prober.solver_options →
   (Prober.solver_selected optimize).1 = Return s ∧
   Prober.attempts (Prober.solver_selected optimize).2 = pre ++ [s]).
Proof.
  intros -> Hpre Hs.
  destruct (try_solvers_first optimize pre s post Hpre Hs) as [Hr Ha].
  assert (Hfst : (Prober.find_solver_in optimize (pre ++ s :: post)).1 = Return s)
    by (by rewrite find_solver_in_fst, Hr).
  assert (Hsnd : Prober.attempts (Prober.find_solver_in optimize (pre ++ s :: post)).2
                 = pre ++ [s]) by (by rewrite find_solver_in_snd).
  split; [done|]. split; [done|]. split; [done|].
  intros Hl. unfold Prober.solver_selected, Prober.find_solver. rewrite <- Hl.
  destruct (Prober.find_solver_in optimize (pre ++ s :: post)) as [r ev].
  simpl in Hfst, Hsnd. subst r. simpl.
  by rewrite attempts_app, Hsnd, app_nil_r.
Qed.

(** The candidate list [A, B, C] with A failing and B working: B is
    returned and C is never tried. *)
Lemma prober_first_success_witness :
  (Prober.find_solver_in Examples.backend_B ["A"; "B"; "C"]).1 = Return "B" ∧
  Prober.attempts (Prober.find_solver_in Examples.backend_B ["A"; "B"; "C"]).2
    = ["A"; "B"].
Proof.
  destruct (prober_first_success Examples.backend_B ["A"; "B"; "C"] ["A"] ["C"] "B")
    as (_ & Hr & Ha & _).
  - reflexivity.
  - intros c ->%list_elem_of_singleton. eexists. reflexivity.
  - eexists. reflexivity.
  - split; [exact Hr | exact Ha].
Defined.

(** On the fixed list, with only 'highs' installed. *)
Example solver_selected_highs :
  (Prober.solver_selected Examples.backend_highs).1 = Return "highs" ∧
  Prober.attempts (Prober.solver_selected Examples.backend_highs).2
    = ["gurobi"; "cplex"; "mosek"; "highs"].
Proof. done. Qed.

(** C3, as stated, fails: with every candidate failing, [solver_selected]
    does not raise an error whose message names the candidates.  The
    [ValueError] of [find_solver] is caught and printed, and what leaves
    the function is the [UnboundLocalError] of [return solver]. *)
Lemma solver_selected_all_fail_unbound :
  (Prober.solver_selected Examples.no_backend).1 = Raise (UnboundLocalError "solver") ∧
  ¬ ∃ e, (Prober.solver_selected Examples.no_backend).1 = Raise e ∧
         Prober.names_all Prober.solver_options (exn_message e).
Proof.
  split; [reflexivity|].
  intros (e & He & Hn). vm_compute in He. injection He as <-.
  assert (Hg : "gurobi" ∈ Prober.solver_options) by (by left).
  apply Hn in Hg. vm_compute in Hg. discriminate.
Qed.

(** C3, amended: if every candidate fails, the inner [find_solver] has
    called the back end on every candidate in order and raises a
    [ValueError] whose message names all of them; [solver_selected]
    catches that error and prints its message rather than propagating it:
    the message is the last line it prints, right after the events of
    [find_solver], and no [ValueError] leaves it. *)
Theorem find_solver_all_fail (optimize : Prober.backend) (l : list string) :
  (∀ c, c ∈ l → raises (optimize c)) →
  (Prober.find_solver_in optimize l).1
    = Raise (ValueError (Prober.no_solver_message l)) ∧
  Prober.names_all l (Prober.no_solver_message l) ∧
  Prober.attempts (Prober.find_solver_in optimize l).2 = l ∧
  (l = Prober.solver_options →
   Prober.no_solver_message l ∈ Prober.printed (Prober.solver_selected optimize).2 ∧
   Prober.attempts (Prober.solver_selected optimize).2 = l ∧
   (Prober.solver_selected optimize).2
     = (Prober.find_solver optimize).2
         ++ [Prober.Print (Prober.no_solver_message l)] ∧
   ∀ m, (Prober.solver_selected optimize).1 ≠ Raise (ValueError m)).
Proof.
  intros Hall.
  destruct (try_solvers_none optimize l Hall) as [Hr Ha].
  assert (Hfst : (Prober.find_solver_in optimize l).1
                 = Raise (ValueError (Prober.no_solver_message l)))
    by (by rewrite find_solver_in_fst, Hr).
  assert (Hsnd : Prober.attempts (Prober.find_solver_in optimize l).2 = l)
    by (by rewrite find_solver_in_snd).
  split; [done|]. split; [apply names_all_message|]. split; [done|].
  intros Hl. unfold Prober.solver_selected, Prober.find_solver. rewrite <- Hl.
  destruct (Prober.find_solver_in optimize l) as [r ev].
  simpl in Hfst, Hsnd. subst r. simpl. split; [|split; [|split]].
  - rewrite printed_app. apply elem_of_app. right. by left.
  - by rewrite attempts_app, Hsnd, app_nil_r.
  - done.
  - done.
Qed.

Lemma find_solver_all_fail_witness :
  (Prober.find_solver Examples.no_backend).1
    = Raise (ValueError
        "No suitable solver found. Please install one of the solvers: gurobi, cplex, mosek, highs, glpk") ∧
  Prober.attempts (Prober.solver_selected Examples.no_backend).2
    = ["gurobi"; "cplex"; "mosek"; "highs"; "glpk"] ∧
  (Prober.solver_selected Examples.no_backend).2
    = (Prober.find_solver Examples.no_backend).2
        ++ [Prober.Print
              "No suitable solver found. Please install one of the solvers: gurobi, cplex, mosek, highs, glpk"] ∧
  (Prober.solver_selected Examples.no_backend).1
    ≠ Raise (ValueError
        "No suitable solver found. Please install one of the solvers: gurobi, cplex, mosek, highs, glpk").
Proof.
  destruct (find_solver_all_fail Examples.no_backend Prober.solver_options)
    as (Hr & _ & _ & Hs).
  - intros c _. eexists. reflexivity.
  - destruct (Hs eq_refl) as (_ & Ha & Hev & Hno).
    split; [exact Hr|]. split; [exact Ha|]. split; [exact Hev | apply Hno].
Defined.

(** ** The interactive viewer *)

Section viewer.
Import Viewer.
Implicit Types (net : network) (val : component) (st : state).

Lemma list_remove_notin x (l : list string) : x ∉ l → list_remove x l = l.
Proof.
  induction l as [|y l IH]; [done|]. intros Hx. simpl.
  rewrite decide_False; [|intros ->; apply Hx; by left].
  f_equal. apply IH. intros ?. apply Hx. by right.
Qed.

Lemma elem_of_list_remove x (l : list string) a :
  NoDup l → a ∈ list_remove x l ↔ a ≠ x ∧ a ∈ l.
Proof.
  induction 1 as [|y l Hy Hnd IH]; simpl.
  - split; [by intros ?%elem_of_nil | by intros [_ ?%elem_of_nil]].
  - case_decide as Hyx.
    + subst y. rewrite elem_of_cons. split.
      * intros Ha. split; [by intros -> | by right].
      * by intros [Hne [?|?]].
    + rewrite !elem_of_cons, IH. split.
      * intros [->|[? ?]]; [by split; [|left] | by split; [|right]].
      * intros [Hne [->|?]]; [by left | by right].
Qed.

(** Attribute labels that are unique in the schema table stay unique
    after the selection by status. *)
Lemma with_status_NoDup io val :
  NoDup (attr_name <$> attrs val) → NoDup (with_status io val).
Proof.
  intros Hnd. unfold with_status. eapply sublist_NoDup; [exact Hnd|].
  apply fmap_sublist, sublist_filter.
Qed.

(** The guard of line 201 adds nothing to [remove]. *)
Lemma static_attributes_eq val io_data :
  static_attributes val io_data
    = list_remove "name" (with_status (io_name io_data) val).
Proof.
  unfold static_attributes. case_decide; [done|]. by rewrite list_remove_notin.
Qed.

Lemma assoc_is_Some {A} a (l : list (string * A)) :
  a ∈ l.*1 → is_Some (assoc a l).
Proof.
  induction l as [|[k v] l IH]; simpl; [by intros ?%elem_of_nil|].
  intros [->|Hin]%elem_of_cons.
  - rewrite decide_True; eauto.
  - case_decide; eauto.
Qed.

Lemma assoc_None {A} a (l : list (string * A)) :
  a ∉ l.*1 → assoc a l = None.
Proof.
  induction l as [|[k v] l IH]; simpl; [done|].
  intros Hn. rewrite decide_False; [|intros ->; apply Hn; by left].
  apply IH. intros ?. apply Hn. by right.
Qed.

(** Selecting labels that are all columns gives exactly these columns,
    each with the cells it has in the table. *)
Lemma pick_Return names cols :
  (∀ a, a ∈ names → a ∈ cols.*1) →
  ∃ r, pick names cols = Return r ∧ r.*1 = names ∧
       Forall (λ c, assoc c.1 cols = Some c.2) r.
Proof.
  induction names as [|a names IH]; intros Hall; simpl.
  - by exists [].
  - destruct (assoc_is_Some a cols) as [cells Hc]; [apply Hall; by left|].
    rewrite Hc. destruct IH as (r & -> & Hr & HF).
    { intros b Hb. apply Hall. by right. }
    exists ((a, cells) :: r). split; [done|]. split; [by rewrite fmap_cons, Hr|].
    by constructor.
Qed.

(** A label that is not a column makes the selection raise. *)
Lemma pick_Raise names cols a :
  a ∈ names → a ∉ cols.*1 →
  ∃ k, pick names cols = Raise (KeyError k) ∧ k ∈ names ∧ k ∉ cols.*1.
Proof.
  induction names as [|b names IH]; [by intros ?%elem_of_nil|].
  intros Hin Hnot. simpl. destruct (assoc b cols) as [cells|] eqn:Hb.
  - assert (Ha : a ∈ names).
    { apply elem_of_cons in Hin as [->|?]; [|done].
      by rewrite assoc_None in Hb. }
    destruct (IH Ha Hnot) as (k & -> & Hk & Hk').
    exists k. split; [done|]. split; [by right | done].
  - exists b. split; [done|]. split; [by left|].
    intros [cells Hc]%assoc_is_Some. congruence.
Qed.

(** The static path, by the emptiness of the valid attributes. *)
Lemma on_confirm_static_eq net val io_data st :
  on_confirm_clicked net val io_data static st =
    match valid_attributes net val io_data with
    | [] => (Return (), st, [ClearOutput; Print no_valid_warning])
    | _ :: _ =>
        match getitem (tables net (list_name val)) (valid_attributes net val io_data) with
        | Raise e => (Raise e, st, [ClearOutput])
        | Return df => (Return (), State (Some df), [ClearOutput; DisplayTable df])
        end
    end.
Proof. unfold on_confirm_clicked. by destruct (valid_attributes net val io_data). Qed.

Lemma session_app net cs1 cs2 st :
  session net (cs1 ++ cs2) st = session net cs2 (session net cs1 st).
Proof. revert st. induction cs1 as [|c cs1 IH]; intros st; simpl; [done|apply IH]. Qed.

(** The traces of a figure carry the column labels, all as lines over
    the index of the series. *)
Lemma plot_traces val var time_data :
  tr_name <$> fig_traces (plot val var time_data) = columns time_data ∧
  Forall (λ t, tr_mode t = "lines" ∧ tr_x t = df_index time_data)
    (fig_traces (plot val var time_data)).
Proof.
  unfold plot, columns. simpl. split.
  - rewrite <- list_fmap_compose. by apply list_fmap_ext.
  - apply Forall_fmap, Forall_forall. by intros c _.
Qed.

(** Each trace draws one column: it carries the label and the cells of
    that column, in the order of the columns. *)
Lemma plot_data val var time_data :
  (λ t, (tr_name t, tr_y t)) <$> fig_traces (plot val var time_data)
    = df_columns time_data.
Proof.
  unfold plot. simpl. rewrite <- list_fmap_compose.
  rewrite <- (list_fmap_id (df_columns time_data)) at 2.
  apply list_fmap_ext. by intros _ [k cells] _.
Qed.

Lemma plot_title val var time_data :
  fig_title (plot val var time_data) = key val +:+ " " +:+ var +:+ " Time Series".
Proof. done. Qed.

End viewer.

(** C5, as stated, fails: the set of valid attributes can be non-empty and
    still nothing is displayed or stored.  For the component Bus and the
    direction Input the set is [carrier], a column of the generator table
    that the bus table of [teaching_network] lacks; the column selection
    raises and no warning is printed. *)
Lemma static_confirm_missing_column :
  Viewer.valid_attributes Examples.teaching_network Examples.Bus Viewer.Input
    = ["carrier"] ∧
  Viewer.on_confirm_clicked Examples.teaching_network Examples.Bus Viewer.Input
      Viewer.static (Viewer.State None)
    = (Raise (KeyError "carrier"), Viewer.State None, [Viewer.ClearOutput]).
Proof. split; vm_compute; reflexivity. Qed.

(** C5, amended: in the static path the valid attributes are the
    attributes whose status matches the direction, without 'name' (the
    first one, were the label repeated), that are columns of the generator
    table.  If there is none,
    the warning is printed and the record is left as it is.  If there are
    some and each is a column of the selected component's table, these
    columns of that table are displayed and stored.  If there are some and
    one is not a column of the selected component's table, the selection
    raises [KeyError]: nothing is displayed, stored or warned about. *)
Theorem static_confirm_outcome (net : Viewer.network) (val : component)
    (io_data : Viewer.direction) (st : Viewer.state) :
  let valid := Viewer.valid_attributes net val io_data in
  let component_data := Viewer.tables net (list_name val) in
  let result := Viewer.on_confirm_clicked net val io_data Viewer.static st in
  valid = filter (λ attr, attr ∈ Viewer.columns (Viewer.generators net))
            (list_remove "name" (with_status (Viewer.io_name io_data) val)) ∧
  (NoDup (attr_name <$> attrs val) →
   ∀ a, a ∈ valid ↔
        a ≠ "name" ∧ a ∈ with_status (Viewer.io_name io_data) val ∧
        a ∈ Viewer.columns (Viewer.generators net)) ∧
  (valid = [] →
   result = (Return (), st, [Viewer.ClearOutput; Viewer.Print Viewer.no_valid_warning])) ∧
  (valid ≠ [] →
   (∀ a, a ∈ valid → a ∈ Viewer.columns component_data) →
   ∃ df, Viewer.columns df = valid ∧
         Viewer.df_index df = Viewer.df_index component_data ∧
         Forall (λ c, assoc c.1 (Viewer.df_columns component_data) = Some c.2)
           (Viewer.df_columns df) ∧
         result = (Return (), Viewer.State (Some df),
                   [Viewer.ClearOutput; Viewer.DisplayTable df])) ∧
  (valid ≠ [] →
   (∃ a, a ∈ valid ∧ a ∉ Viewer.columns component_data) →
   ∃ k, k ∈ valid ∧ (k ∉ Viewer.columns component_data) ∧
        result = (Raise (KeyError k), st, [Viewer.ClearOutput])).
Proof.
  intros valid component_data result.
  split; [|split; [|split; [|split]]].
  - unfold valid, Viewer.valid_attributes. by rewrite static_attributes_eq.
  - intros Hnd a. unfold valid, Viewer.valid_attributes.
    rewrite static_attributes_eq, list_elem_of_filter.
    rewrite elem_of_list_remove by (by apply with_status_NoDup). tauto.
  - intros Hv. unfold result. rewrite on_confirm_static_eq. fold valid. by rewrite Hv.
  - intros Hne Hall.
    destruct (pick_Return valid (Viewer.df_columns component_data) Hall)
      as (r & Hp & Hr & HF).
    exists (Viewer.mkDataFrame (Viewer.df_index component_data) r).
    split; [done|]. split; [done|]. split; [done|].
    unfold result. rewrite on_confirm_static_eq. unfold Viewer.getitem.
    fold valid component_data. rewrite Hp. clearbody valid. by destruct valid.
  - intros Hne (a & Ha & Hna).
    destruct (pick_Raise valid (Viewer.df_columns component_data) a Ha Hna)
      as (k & Hp & Hk & Hnk).
    exists k. split; [done|]. split; [done|].
    unfold result. rewrite on_confirm_static_eq. unfold Viewer.getitem.
    fold valid component_data. rewrite Hp. clearbody valid. by destruct valid.
Qed.

(** Generator, Input: the three static input columns of the generator
    table are displayed and stored. *)
Lemma static_confirm_outcome_witness :
  ∃ df, Viewer.columns df = ["bus"; "carrier"; "p_nom"] ∧
        Viewer.on_confirm_clicked Examples.teaching_network Examples.Generator
          Viewer.Input Viewer.static (Viewer.State None)
        = (Return (), Viewer.State (Some df),
           [Viewer.ClearOutput; Viewer.DisplayTable df]).
Proof.
  destruct (static_confirm_outcome Examples.teaching_network Examples.Generator
              Viewer.Input (Viewer.State None)) as (_ & _ & _ & H & _).
  destruct H as (df & Hc & _ & _ & Hr).
  - vm_compute. discriminate.
  - intros a Ha. vm_compute in Ha. vm_compute. exact Ha.
  - exists df. split; [exact Hc | exact Hr].
Defined.

(** The viewer of the example network opens on the sorted component
    names with an empty record. *)
Example pypsa_viewer_teaching_network :
  Viewer.pypsa_viewer Examples.teaching_network
    = (Return (Viewer.State None),
       [Viewer.ClearOutput;
        Viewer.DisplaySelectors ["Bus"; "Generator"; "Load"] "Bus"]).
Proof. vm_compute. reflexivity. Qed.

(** C6: after the second confirmation, with [time_data] the series
    fetched for the chosen variable: in table mode it is displayed and
    stored whether or not it is empty; in plot mode an empty series gives
    the message 'No data to plot' and the record holds none; a non-empty
    one gives a figure with one line trace per data column, which draws
    the cells of that column against the index of the series under the
    label of the column, titled with the component type and the variable
    name, and the series is stored. *)
Theorem varying_confirm_outcome (net : Viewer.network) (val : component)
    (new_selected_dropdown : string) (st : Viewer.state) (time_data : Viewer.DataFrame) :
  Viewer.tables_t net (list_name val) !! new_selected_dropdown = Some time_data →
  Viewer.on_new_confirm_clicked net val Viewer.varying new_selected_dropdown
      Viewer.Table st
    = (Return (), Viewer.State (Some time_data),
       [Viewer.ClearOutput; Viewer.DisplayTable time_data]) ∧
  (Viewer.empty time_data = true →
   Viewer.on_new_confirm_clicked net val Viewer.varying new_selected_dropdown
       Viewer.Plot st
     = (Return (), Viewer.State None,
        [Viewer.ClearOutput; Viewer.Print "No data to plot"])) ∧
  (Viewer.empty time_data = false →
   ∃ fig,
     Viewer.on_new_confirm_clicked net val Viewer.varying new_selected_dropdown
         Viewer.Plot st
       = (Return (), Viewer.State (Some time_data),
          [Viewer.ClearOutput; Viewer.ShowFigure fig]) ∧
     Viewer.tr_name <$> Viewer.fig_traces fig = Viewer.columns time_data ∧
     Forall (λ t, Viewer.tr_mode t = "lines" ∧
                  Viewer.tr_x t = Viewer.df_index time_data)
       (Viewer.fig_traces fig) ∧
     Viewer.fig_title fig
       = key val +:+ " " +:+ new_selected_dropdown +:+ " Time Series" ∧
     length (Viewer.fig_traces fig) = length (Viewer.df_columns time_data) ∧
     (λ t, (Viewer.tr_name t, Viewer.tr_y t)) <$> Viewer.fig_traces fig
       = Viewer.df_columns time_data ∧
     Viewer.fig_xaxis_title fig = "Time" ∧
     Viewer.fig_yaxis_title fig = "Value").
Proof.
  intros Hfetch. unfold Viewer.on_new_confirm_clicked. rewrite Hfetch.
  split; [done|]. split.
  - by intros ->.
  - intros ->. exists (Viewer.plot val new_selected_dropdown time_data).
    split; [done|].
    destruct (plot_traces val new_selected_dropdown time_data) as [Hn HF].
    pose proof (plot_data val new_selected_dropdown time_data) as Hd.
    split; [done|]. split; [done|]. split; [apply plot_title|].
    split; [|done].
    rewrite <- Hd at 1. by rewrite length_fmap.
Qed.

(** Load, variable p_set: the series has one column, Load1.  The table
    is stored as it is; the plot has one line, which draws the three
    values of Load1 over the three snapshots. *)
Lemma varying_confirm_outcome_witness :
  Viewer.on_new_confirm_clicked Examples.teaching_network Examples.Load
      Viewer.varying "p_set" Viewer.Table (Viewer.State None)
    = (Return (), Viewer.State (Some Examples.loads_p_set),
       [Viewer.ClearOutput; Viewer.DisplayTable Examples.loads_p_set]) ∧
  ∃ fig,
    Viewer.on_new_confirm_clicked Examples.teaching_network Examples.Load
        Viewer.varying "p_set" Viewer.Plot (Viewer.State None)
      = (Return (), Viewer.State (Some Examples.loads_p_set),
         [Viewer.ClearOutput; Viewer.ShowFigure fig]) ∧
    (λ t, (Viewer.tr_name t, Viewer.tr_y t)) <$> Viewer.fig_traces fig
      = [("Load1", ["10"; "15"; "20"])] ∧
    Forall (λ t, Viewer.tr_mode t = "lines" ∧ Viewer.tr_x t = Examples.snapshots)
      (Viewer.fig_traces fig) ∧
    Viewer.fig_title fig = "Load p_set Time Series".
Proof.
  destruct (varying_confirm_outcome Examples.teaching_network Examples.Load
              "p_set" (Viewer.State None) Examples.loads_p_set) as (Ht & _ & Hp).
  - vm_compute. reflexivity.
  - split; [exact Ht|].
    destruct Hp as (fig & Hr & _ & HF & Htitle & _ & Hd & _); [reflexivity|].
    exists fig. split; [exact Hr|]. split; [exact Hd|]. split; [exact HF|exact Htitle].
Defined.

(** The empty series of the example network in both modes. *)
Example varying_confirm_empty_series :
  Viewer.empty Examples.generators_p_max_pu = true ∧
  Viewer.on_new_confirm_clicked Examples.teaching_network Examples.Generator
      Viewer.varying "p_max_pu" Viewer.Plot (Viewer.State (Some Examples.loads_p_set))
    = (Return (), Viewer.State None,
       [Viewer.ClearOutput; Viewer.Print "No data to plot"]) ∧
  Viewer.on_new_confirm_clicked Examples.teaching_network Examples.Generator
      Viewer.varying "p_max_pu" Viewer.Table (Viewer.State None)
    = (Return (), Viewer.State (Some Examples.generators_p_max_pu),
       [Viewer.ClearOutput; Viewer.DisplayTable Examples.generators_p_max_pu]).
Proof. repeat split; vm_compute; reflexivity. Qed.

(** C9: when the static path finds no valid attribute, the handler prints
    the warning and leaves the shared record as it is: whatever the
    earlier presses [cs] of the session stored is still there, so a
    dataset stored before is still held after the warning. *)
Theorem static_warning_keeps_return_file (net : Viewer.network)
    (cs : list Viewer.click) (st0 : Viewer.state) (val : component)
    (io_data : Viewer.direction) :
  Viewer.valid_attributes net val io_data = [] →
  Viewer.handle net (Viewer.Confirm val io_data Viewer.static)
      (Viewer.session net cs st0)
    = (Return (), Viewer.session net cs st0,
       [Viewer.ClearOutput; Viewer.Print Viewer.no_valid_warning]) ∧
  Viewer.session net (cs ++ [Viewer.Confirm val io_data Viewer.static]) st0
    = Viewer.session net cs st0 ∧
  ∀ d, Viewer.return_file (Viewer.session net cs st0) = Some d →
       Viewer.return_file
         (Viewer.session net (cs ++ [Viewer.Confirm val io_data Viewer.static]) st0)
       = Some d.
Proof.
  intros Hv.
  assert (Hh : Viewer.handle net (Viewer.Confirm val io_data Viewer.static)
                 (Viewer.session net cs st0)
               = (Return (), Viewer.session net cs st0,
                  [Viewer.ClearOutput; Viewer.Print Viewer.no_valid_warning])).
  { simpl. unfold Viewer.on_confirm_clicked. by rewrite Hv. }
  assert (Hs : Viewer.session net (cs ++ [Viewer.Confirm val io_data Viewer.static]) st0
               = Viewer.session net cs st0).
  { rewrite session_app. cbn [Viewer.session]. by rewrite Hh. }
  split; [done|]. split; [done|]. intros d Hd. by rewrite Hs.
Qed.

(** A session on [teaching_network]: the load series is shown as a table
    and stored; then Bus, Output, static finds no valid attribute, and the
    record still holds the load series. *)
Lemma static_warning_keeps_return_file_witness :
  Viewer.return_file
    (Viewer.session Examples.teaching_network
       ([Viewer.Confirm Examples.Load Viewer.Input Viewer.varying;
         Viewer.NewConfirm Examples.Load Viewer.varying "p_set" Viewer.Table]
        ++ [Viewer.Confirm Examples.Bus Viewer.Output Viewer.static])
       (Viewer.State None))
  = Some Examples.loads_p_set.
Proof.
  destruct (static_warning_keeps_return_file Examples.teaching_network
              [Viewer.Confirm Examples.Load Viewer.Input Viewer.varying;
               Viewer.NewConfirm Examples.Load Viewer.varying "p_set" Viewer.Table]
              (Viewer.State None) Examples.Bus Viewer.Output) as (_ & _ & H).
  - vm_compute. reflexivity.
  - apply H. vm_compute. reflexivity.
Defined.

(** C10: when the selected component and direction have no time-varying
    attribute and 'varying' is confirmed, building the second-level
    dropdown reads position 0 of the empty list: the handler raises
    [IndexError], prints no warning and leaves the record as it is. *)
Theorem varying_confirm_empty_raises (net : Viewer.network) (val : component)
    (io_data : Viewer.direction) (st : Viewer.state) :
  Viewer.varying_attributes val io_data = [] →
  Viewer.on_confirm_clicked net val io_data Viewer.varying st
    = (Raise (IndexError "list index out of range"), st, []).
Proof. intros Hv. unfold Viewer.on_confirm_clicked. by rewrite Hv. Qed.

(** Bus, Input: no time-varying input attribute. *)
Lemma varying_confirm_empty_raises_witness :
  Viewer.on_confirm_clicked Examples.teaching_network Examples.Bus Viewer.Input
      Viewer.varying (Viewer.State None)
    = (Raise (IndexError "list index out of range"), Viewer.State None, []).
Proof.
  apply (varying_confirm_empty_raises Examples.teaching_network Examples.Bus
           Viewer.Input (Viewer.State None)).
  vm_compute. reflexivity.
Defined.

(** * Further properties of the three helpers *)

(** ** The converter: one sheet *)

Section sheet.
Import Converter.
Implicit Types (es : entries) (xls : workbook).

Lemma assoc_app {A} a (l1 l2 : list (string * A)) :
  assoc a (l1 ++ l2) = match assoc a l1 with Some v => Some v | None => assoc a l2 end.
Proof.
  induction l1 as [|[k v] l1 IH]; simpl; [done|]. by case_decide.
Qed.

Lemma assoc_overwrite name (e : entry) es n :
  assoc n ((λ p, if decide (p.1 = name) then (name, e) else p) <$> es)
    = if decide (n = name) then (λ _, e) <$> assoc name es else assoc n es.
Proof.
  induction es as [|[k v] es IH]; [simpl; by case_decide|].
  rewrite fmap_cons. cbn [fst]. destruct (decide (k = name)) as [->|Hk].
  - cbn [assoc]. destruct (decide (name = n)) as [<-|Hn].
    + by rewrite !decide_True.
    + rewrite IH, !(decide_False (P := n = name)) by done. done.
  - cbn [assoc]. destruct (decide (k = n)) as [->|Hn].
    + by rewrite decide_False.
    + rewrite IH. case_decide; [|done]. by rewrite decide_False.
Qed.

Lemma dir_lookup_write name content es n :
  dir_lookup n (dir_write name content es)
    = if decide (n = name) then Some (File content) else dir_lookup n es.
Proof.
  unfold dir_write, dir_lookup. destruct (assoc name es) as [e|] eqn:Hl.
  - rewrite assoc_overwrite, Hl. by case_decide.
  - rewrite assoc_app. simpl. destruct (decide (n = name)) as [->|Hn].
    + by rewrite Hl, decide_True.
    + rewrite (decide_False (P := name = n)) by done. by destruct (assoc n es).
Qed.

Lemma to_csv_Return name content es es' :
  to_csv name content es = Return es' →
  dir_lookup name es ≠ Some Subdir ∧ es' = dir_write name content es.
Proof.
  unfold to_csv. destruct (dir_lookup name es) as [[?|]|]; [|done|]; by intros [= <-].
Qed.

Lemma to_csv_not_Subdir name content es :
  dir_lookup name es ≠ Some Subdir →
  to_csv name content es = Return (dir_write name content es).
Proof. unfold to_csv. by destruct (dir_lookup name es) as [[?|]|]. Qed.

Lemma app_inj_r (s s' t : string) : s +:+ t = s' +:+ t → s = s'.
Proof.
  revert s'. induction s as [|a s IH]; intros [|a' s']; [done|..].
  - intros H. apply (f_equal String.length) in H.
    rewrite !length_app in H. simpl in H. lia.
  - intros H. apply (f_equal String.length) in H.
    rewrite !length_app in H. simpl in H. lia.
  - rewrite !app_cons. intros [= -> H]. f_equal. by apply IH.
Qed.

Lemma csv_name_inj s s' : csv_name s = csv_name s' → s = s'.
Proof. apply app_inj_r. Qed.

(** The three ways [convert_sheet_to_csv] can end. *)
Lemma convert_sheet_cases xls sheet_name csv_folder_path es :
  (∃ t, parse xls sheet_name = Return t ∧
        dir_lookup (csv_name sheet_name) es ≠ Some Subdir ∧
        convert_sheet_to_csv xls sheet_name csv_folder_path es
          = (Return (path_join csv_folder_path (csv_name sheet_name)),
             dir_write (csv_name sheet_name) t es,
             [LogInfo ("Converted " +:+ sheet_name +:+ " to CSV.")])) ∨
  (∃ e, convert_sheet_to_csv xls sheet_name csv_folder_path es = (Raise e, es, []) ∧
        (parse xls sheet_name = Raise e ∨
         dir_lookup (csv_name sheet_name) es = Some Subdir)).
Proof.
  unfold convert_sheet_to_csv, csv_name.
  destruct (parse xls sheet_name) as [t|e] eqn:Hp.
  - unfold to_csv. destruct (dir_lookup _ es) as [[c|]|] eqn:Hl.
    + left. exists t. by repeat split.
    + right. eexists. split; [done|]. by right.
    + left. exists t. by repeat split.
  - right. exists e. split; [done|]. by left.
Qed.

End sheet.

(** X1: a parsable sheet with no directory in the way is written under
    [sheet_name.csv]: the call returns the joined path, the folder then
    holds the sheet's text under that name, every other entry is as
    before, and one line is logged. *)
Theorem convert_sheet_writes (xls : Converter.workbook)
    (sheet_name csv_folder_path t : string) (es : Converter.entries) :
  Converter.parse xls sheet_name = Return t →
  Converter.dir_lookup (csv_name sheet_name) es ≠ Some Converter.Subdir →
  let r := Converter.convert_sheet_to_csv xls sheet_name csv_folder_path es in
  r.1.1 = Return (Converter.path_join csv_folder_path (csv_name sheet_name)) ∧
  Converter.dir_lookup (csv_name sheet_name) r.1.2 = Some (Converter.File t) ∧
  (∀ n, n ≠ csv_name sheet_name →
        Converter.dir_lookup n r.1.2 = Converter.dir_lookup n es) ∧
  r.2 = [Converter.LogInfo ("Converted " +:+ sheet_name +:+ " to CSV.")].
Proof.
  intros Hp Hl r. subst r.
  destruct (convert_sheet_cases xls sheet_name csv_folder_path es)
    as [(t' & Hp' & _ & ->)|(e & _ & [Hp'|Hl'])]; [|congruence..].
  assert (t' = t) as -> by congruence. simpl.
  split; [done|]. split; [|split; [|done]].
  - rewrite dir_lookup_write. by rewrite decide_True.
  - intros n Hn. rewrite dir_lookup_write. by rewrite decide_False.
Qed.

Lemma convert_sheet_writes_witness :
  Converter.dir_lookup "buses.csv"
    (Converter.convert_sheet_to_csv Examples.teaching_workbook "buses" "csv"
       Examples.used_folder).1.2
  = Some (Converter.File "name,v_nom").
Proof.
  destruct (convert_sheet_writes Examples.teaching_workbook "buses" "csv"
              "name,v_nom" Examples.used_folder) as (_ & H & _).
  - reflexivity.
  - vm_compute. discriminate.
  - exact H.
Defined.


(** ** The converter: the worker pool *)

Section pool.
Import Converter.
Implicit Types (es : entries) (xls : workbook) (tasks : list string).

Lemma run_pool_cons xls f s tasks es :
  run_pool xls f (s :: tasks) es =
    let r := convert_sheet_to_csv xls s f es in
    let rs := run_pool xls f tasks r.1.2 in
    (r.1.1 :: rs.1.1, rs.1.2, r.2 ++ rs.2).
Proof.
  simpl. destruct (convert_sheet_to_csv xls s f es) as [[r es1] ev1]. simpl.
  by destruct (run_pool xls f tasks es1) as [[rs es2] ev2].
Qed.

Lemma convert_sheet_lookup_other xls f s es name :
  name ≠ csv_name s →
  dir_lookup name (convert_sheet_to_csv xls s f es).1.2 = dir_lookup name es.
Proof.
  intros Hn.
  destruct (convert_sheet_cases xls s f es) as [(t & _ & _ & ->)|(e & -> & _)];
    simpl; [|done].
  rewrite dir_lookup_write. by rewrite decide_False.
Qed.

(** A task touches its own file only. *)
Lemma run_pool_lookup_other xls f tasks es name :
  (∀ s, s ∈ tasks → name ≠ csv_name s) →
  dir_lookup name (run_pool xls f tasks es).1.2 = dir_lookup name es.
Proof.
  revert es. induction tasks as [|s tasks IH]; intros es Hn; [done|].
  rewrite run_pool_cons. simpl. rewrite IH.
  - apply convert_sheet_lookup_other, Hn. by left.
  - intros s' Hs'. apply Hn. by right.
Qed.

(** Once a sheet's file is there with the sheet's text, the rest of the
    pool leaves it so. *)
Lemma run_pool_keeps_written xls f tasks es s t :
  parse xls s = Return t →
  dir_lookup (csv_name s) es = Some (File t) →
  dir_lookup (csv_name s) (run_pool xls f tasks es).1.2 = Some (File t).
Proof.
  intros Hp. revert es. induction tasks as [|s0 tasks IH]; intros es Hl; [done|].
  rewrite run_pool_cons. simpl. apply IH.
  destruct (convert_sheet_cases xls s0 f es) as [(t0 & Hp0 & _ & ->)|(e & -> & _)];
    simpl; [|done].
  rewrite dir_lookup_write. case_decide as Heq; [|done].
  apply csv_name_inj in Heq as ->. congruence.
Qed.

Lemma run_pool_writes xls f tasks es s t :
  s ∈ tasks →
  parse xls s = Return t →
  dir_lookup (csv_name s) es ≠ Some Subdir →
  dir_lookup (csv_name s) (run_pool xls f tasks es).1.2 = Some (File t).
Proof.
  intros Hin Hp. revert es. induction tasks as [|s0 tasks IH]; intros es Hl.
  { by apply elem_of_nil in Hin. }
  rewrite run_pool_cons. simpl. destruct (decide (s0 = s)) as [->|Hne].
  - apply run_pool_keeps_written; [done|].
    by destruct (convert_sheet_writes xls s f t es Hp Hl) as (_ & ? & _).
  - apply elem_of_cons in Hin as [->|Hin]; [done|].
    apply IH; [done|]. rewrite convert_sheet_lookup_other; [done|].
    intros ?%csv_name_inj. congruence.
Qed.

(** A pool without a failed future has written every one of its sheets. *)
Lemma run_pool_all_written xls f tasks es s :
  (∀ e, Raise e ∉ (run_pool xls f tasks es).1.1) →
  s ∈ tasks →
  ∃ t, parse xls s = Return t ∧
       dir_lookup (csv_name s) (run_pool xls f tasks es).1.2 = Some (File t).
Proof.
  revert es. induction tasks as [|s0 tasks IH]; intros es Hok Hs.
  { by apply elem_of_nil in Hs. }
  rewrite run_pool_cons in Hok. rewrite run_pool_cons. simpl in *.
  destruct (decide (s0 = s)) as [->|Hne].
  - destruct (convert_sheet_cases xls s f es) as [(t & Hp & Hl & Hr)|(e & He & _)].
    + exists t. split; [done|]. apply run_pool_keeps_written; [done|].
      by destruct (convert_sheet_writes xls s f t es Hp Hl) as (_ & ? & _).
    + exfalso. apply (Hok e). rewrite He. by left.
  - apply elem_of_cons in Hs as [->|Hs]; [done|].
    apply IH; [|done]. intros e He. apply (Hok e). by right.
Qed.

(** The events of the pool are its log lines. *)
Lemma run_pool_events xls f tasks es ev :
  ev ∈ (run_pool xls f tasks es).2 →
  ∃ s, s ∈ tasks ∧ ev = LogInfo ("Converted " +:+ s +:+ " to CSV.").
Proof.
  revert es. induction tasks as [|s0 tasks IH]; intros es; [by intros ?%elem_of_nil|].
  rewrite run_pool_cons. simpl. intros [Hin|Hin]%elem_of_app.
  - exists s0. split; [by left|].
    destruct (convert_sheet_cases xls s0 f es) as [(t & _ & _ & Hr)|(e & Hr & _)];
      rewrite Hr in Hin; simpl in Hin.
    + by apply list_elem_of_singleton in Hin.
    + by apply elem_of_nil in Hin.
  - destruct (IH _ Hin) as (s & Hs & ->). exists s. split; [by right|done].
Qed.

End pool.

(** ** The converter: the whole call *)

Section whole.
Import Converter.
Implicit Types (w : world) (es : entries).

Lemma convert_run w excel_file_path csv_folder_path :
  run w excel_file_path csv_folder_path
    (convert_excel_to_csv w excel_file_path csv_folder_path).
Proof.
  unfold convert_excel_to_csv.
  destruct (makedirs csv_folder_path (folder w)) as [es0|e] eqn:Hm;
    [|by apply run_no_folder].
  destruct (clear_relevant _ _ es0) as [[[]|e] es1] eqn:Hc;
    [|by eapply run_blocked].
  destruct (excel w) as [xls|e] eqn:Hx; [|by eapply run_unopened].
  pose proof (run_sheet_failed w excel_file_path csv_folder_path es0 es1 xls) as Hf.
  pose proof (run_done w excel_file_path csv_folder_path es0 es1 xls) as Hd.
  simpl in Hf, Hd.
  destruct (run_pool _ _ _ es1) as [[futures es2] ev]. simpl in Hf, Hd.
  destruct (collect [] futures) as [files|e] eqn:Hcol.
  - by eapply Hd.
  - by eapply Hf.
Qed.

Lemma collect_Raise_elem created futures e :
  collect created futures = Raise e → Raise e ∈ futures.
Proof.
  revert created. induction futures as [|[p|e0] futures IH]; intros created; simpl.
  - done.
  - intros H. right. by eapply IH.
  - intros [= ->]. by left.
Qed.

Lemma makedirs_lookup f nd es0 name :
  makedirs f nd = Return es0 → dir_lookup name es0 = node_lookup name nd.
Proof. destruct nd; simpl; [by intros [= <-] | done | by intros [= <-]]. Qed.

Lemma dir_lookup_unlisted name es : name ∉ listdir es → dir_lookup name es = None.
Proof. apply assoc_None. Qed.

(** After the deletion loop over the listing of the folder itself. *)
Lemma clear_listing_lookup allow es es' name :
  clear_relevant allow (listdir es) es = (Return (), es') →
  dir_lookup name es' = if relevant allow name then None else dir_lookup name es.
Proof.
  intros H. rewrite (clear_relevant_lookup _ _ _ _ name H).
  destruct (relevant allow name) eqn:Hr.
  - case_decide as Hd; [done|]. apply dir_lookup_unlisted. intros Hin. by apply Hd.
  - rewrite decide_False; [done|]. by intros [_ ?].
Qed.

(** What the prepared and cleared folder holds under a name the loop does
    not select, whether the loop ended or raised. *)
Lemma cleared_lookup_kept w f es0 es1 o name :
  makedirs f (folder w) = Return es0 →
  clear_relevant (components (schema w)) (listdir es0) es0 = (o, es1) →
  relevant (components (schema w)) name = false →
  dir_lookup name es1 = node_lookup name (folder w).
Proof.
  intros Hm Hc Hr.
  replace es1 with (clear_relevant (components (schema w)) (listdir es0) es0).2
    by (by rewrite Hc).
  rewrite clear_relevant_keeps by done. by apply (makedirs_lookup f).
Qed.

End whole.

(** X3: whatever way the call ends, an entry of the output location is
    as before when the deletion test does not select its name and it is
    not the CSV file of an allowed sheet name: the converter touches
    nothing else. *)
Theorem convert_frame (w : Converter.world) (excel_file_path csv_folder_path : string)
    (name : string) :
  Converter.relevant (Converter.components (Converter.schema w)) name = false →
  (∀ s, s ∈ Converter.components (Converter.schema w) → name ≠ csv_name s) →
  node_lookup name (Converter.convert_excel_to_csv w excel_file_path csv_folder_path).1.2
    = node_lookup name (Converter.folder w).
Proof.
  intros Hrel Hnot.
  assert (Hpool : ∀ xls s,
            s ∈ Converter.submitted (Converter.components (Converter.schema w)) xls →
            name ≠ csv_name s).
  { intros xls s [_ Hs]%elem_of_submitted. by apply Hnot. }
  destruct (convert_run w excel_file_path csv_folder_path)
    as [e Hm|es0 es1 e Hm Hc|es0 es1 e Hm Hc Hx|es0 es1 xls e Hm Hc Hx pool ?
        |es0 es1 xls files Hm Hc Hx pool ?]; simpl; [done|..].
  - by eapply cleared_lookup_kept.
  - by eapply cleared_lookup_kept.
  - unfold pool. rewrite run_pool_lookup_other by eauto. by eapply cleared_lookup_kept.
  - unfold pool. rewrite run_pool_lookup_other by eauto. by eapply cleared_lookup_kept.
Qed.

Lemma convert_frame_witness :
  node_lookup "notes.csv"
    (Converter.convert_excel_to_csv Examples.used_world "model.xlsx" "csv").1.2
  = Some (Converter.File "remark").
Proof.
  rewrite (convert_frame Examples.used_world "model.xlsx" "csv" "notes.csv").
  - reflexivity.
  - vm_compute. reflexivity.
  - intros s Hs Heq. change "notes.csv" with (csv_name "notes") in Heq.
    apply csv_name_inj in Heq as <-. revert Hs. by_computation.
Defined.

(** X4: the pool does not roll back.  Once the folder is prepared and the
    workbook is open, every selected sheet that parses, with no directory
    under its file name, is on disk with its text when the call ends,
    also when another sheet failed and the call returns the empty list. *)
Theorem pool_no_rollback (w : Converter.world) (excel_file_path csv_folder_path : string)
    (es0 es1 : Converter.entries) (xls : Converter.workbook) (s t : string) :
  Converter.makedirs csv_folder_path (Converter.folder w) = Return es0 →
  Converter.clear_relevant (Converter.components (Converter.schema w))
      (Converter.listdir es0) es0 = (Return (), es1) →
  Converter.excel w = Return xls →
  s ∈ Converter.submitted (Converter.components (Converter.schema w)) xls →
  Converter.parse xls s = Return t →
  Converter.dir_lookup (csv_name s) es1 ≠ Some Converter.Subdir →
  node_lookup (csv_name s)
      (Converter.convert_excel_to_csv w excel_file_path csv_folder_path).1.2
    = Some (Converter.File t).
Proof.
  intros Hm Hc Hx Hs Hp Hl.
  destruct (convert_run w excel_file_path csv_folder_path)
    as [e Hm'|es0' es1' e Hm' Hc'|es0' es1' e Hm' Hc' Hx'|es0' es1' xls' e Hm' Hc' Hx' pool ?
        |es0' es1' xls' files Hm' Hc' Hx' pool ?]; try congruence.
  all: assert (es0' = es0) as -> by congruence.
  all: assert (es1' = es1) as -> by congruence.
  all: assert (xls' = xls) as -> by congruence.
  all: by apply run_pool_writes.
Qed.

(** The sheet "buses" of [broken_world] fails; "generators-p_max_pu" is
    written all the same and the call returns the empty list. *)
Lemma pool_no_rollback_witness :
  (Converter.convert_excel_to_csv Examples.broken_world "model.xlsx" "csv").1.1
    = Return (Converter.PyList []) ∧
  node_lookup "generators-p_max_pu.csv"
      (Converter.convert_excel_to_csv Examples.broken_world "model.xlsx" "csv").1.2
    = Some (Converter.File "snapshot,Gen1").
Proof.
  split; [reflexivity|].
  apply (pool_no_rollback Examples.broken_world "model.xlsx" "csv" [] []
           [("buses", Converter.Broken "corrupt sheet");
            ("generators-p_max_pu", Converter.Table "snapshot,Gen1")]
           "generators-p_max_pu" "snapshot,Gen1").
  - reflexivity.
  - reflexivity.
  - reflexivity.
  - by_computation.
  - reflexivity.
  - vm_compute. discriminate.
Defined.

(** X5: when the call returns the folder path, the workbook was opened,
    every selected sheet is in the folder under [sheet.csv] with its text,
    and any other entry is gone if the deletion test selects its name and
    is as before otherwise. *)
Theorem convert_success_folder (w : Converter.world)
    (excel_file_path csv_folder_path : string) :
  (Converter.convert_excel_to_csv w excel_file_path csv_folder_path).1.1
    = Return (Converter.PyStr csv_folder_path) →
  ∃ xls,
    Converter.excel w = Return xls ∧
    (∀ s, s ∈ Converter.submitted (Converter.components (Converter.schema w)) xls →
       ∃ t, Converter.parse xls s = Return t ∧
            node_lookup (csv_name s)
              (Converter.convert_excel_to_csv w excel_file_path csv_folder_path).1.2
            = Some (Converter.File t)) ∧
    (∀ name,
       (∀ s, s ∈ Converter.submitted (Converter.components (Converter.schema w)) xls →
             name ≠ csv_name s) →
       node_lookup name
         (Converter.convert_excel_to_csv w excel_file_path csv_folder_path).1.2
       = if Converter.relevant (Converter.components (Converter.schema w)) name
         then None else node_lookup name (Converter.folder w)).
Proof.
  destruct (convert_run w excel_file_path csv_folder_path)
    as [e Hm|es0 es1 e Hm Hc|es0 es1 e Hm Hc Hx|es0 es1 xls e Hm Hc Hx pool Hcol
        |es0 es1 xls files Hm Hc Hx pool Hcol]; simpl; try done.
  intros _. exists xls. split; [done|].
  assert (Hok : ∀ e, Raise e ∉ pool.1.1) by (by eapply collect_Return).
  split.
  - intros s Hs. by apply run_pool_all_written.
  - intros name Hn. unfold pool. rewrite run_pool_lookup_other by done.
    rewrite (clear_listing_lookup _ _ _ name Hc).
    by rewrite (makedirs_lookup _ _ _ name Hm).
Qed.

(** The used folder of the examples: the stale "buses.csv" is replaced
    by the text of the sheet. *)
Lemma convert_success_folder_witness :
  node_lookup "buses.csv"
    (Converter.convert_excel_to_csv Examples.used_world "model.xlsx" "csv").1.2
  = Some (Converter.File "name,v_nom").
Proof.
  destruct (convert_success_folder Examples.used_world "model.xlsx" "csv")
    as (xls & Hx & Hw & _).
  - vm_compute. reflexivity.
  - injection Hx as <-. destruct (Hw "buses") as (t & Hp & Hl).
    + by_computation.
    + injection Hp as <-. exact Hl.
Defined.

(** X6: the value of a call is the folder path, the empty list or an
    exception: the list of created files the pool collects is never
    returned.  The folder path comes back exactly when the folder was
    prepared, the workbook opened and no future of the pool raised; the
    empty list exactly when the workbook opened and some future raised. *)
Theorem convert_result_shapes (w : Converter.world)
    (excel_file_path csv_folder_path : string) :
  let r := (Converter.convert_excel_to_csv w excel_file_path csv_folder_path).1.1 in
  let pooled (P : list (outcome string) → Prop) : Prop :=
    ∃ es0 es1 xls,
      Converter.makedirs csv_folder_path (Converter.folder w) = Return es0 ∧
      Converter.clear_relevant (Converter.components (Converter.schema w))
        (Converter.listdir es0) es0 = (Return (), es1) ∧
      Converter.excel w = Return xls ∧
      P (Converter.run_pool xls csv_folder_path
           (Converter.submitted (Converter.components (Converter.schema w)) xls)
           es1).1.1 in
  (r = Return (Converter.PyStr csv_folder_path) ∨
   r = Return (Converter.PyList []) ∨ raises r) ∧
  (r = Return (Converter.PyStr csv_folder_path) ↔
     pooled (λ futures, ∀ e, Raise e ∉ futures)) ∧
  (r = Return (Converter.PyList []) ↔ pooled (λ futures, ∃ e, Raise e ∈ futures)).
Proof.
  intros r pooled. subst r pooled.
  destruct (convert_run w excel_file_path csv_folder_path)
    as [e Hm|es0 es1 e Hm Hc|es0 es1 e Hm Hc Hx|es0 es1 xls e Hm Hc Hx pool Hcol
        |es0 es1 xls files Hm Hc Hx pool Hcol]; simpl.
  - split; [right; right; by exists e|].
    split; (split; [done|]); intros (? & ? & ? & ? & _); congruence.
  - split; [right; right; by exists e|].
    split; (split; [done|]); intros (? & ? & ? & ? & ? & _); congruence.
  - split; [right; right; by eexists|].
    split; (split; [done|]); intros (? & ? & ? & ? & ? & ? & _); congruence.
  - split; [right; by left|].
    assert (Hbad : ∃ e', Raise e' ∈ pool.1.1)
      by (exists e; by eapply collect_Raise_elem).
    split; split.
    + done.
    + intros (es0' & es1' & xls' & Hm' & Hc' & Hx' & Hok).
      assert (es0' = es0) as -> by congruence.
      assert (es1' = es1) as -> by congruence.
      assert (xls' = xls) as -> by congruence.
      destruct Hbad as [e' He']. by destruct (Hok e').
    + intros _. by exists es0, es1, xls.
    + done.
  - split; [by left|].
    assert (Hok : ∀ e, Raise e ∉ pool.1.1) by (by eapply collect_Return).
    split; split.
    + intros _. by exists es0, es1, xls.
    + done.
    + done.
    + intros (es0' & es1' & xls' & Hm' & Hc' & Hx' & e' & He').
      assert (es0' = es0) as -> by congruence.
      assert (es1' = es1) as -> by congruence.
      assert (xls' = xls) as -> by congruence.
      by destruct (Hok e').
Qed.

(** X7: the workbook is closed exactly when it was opened: the line
    "Excel file is closed" is among the events of a call if and only if
    the folder was prepared and [pd.ExcelFile] returned, whatever the pool
    did afterwards. *)
Theorem workbook_closed_iff_opened (w : Converter.world)
    (excel_file_path csv_folder_path : string) :
  Converter.Print "Excel file is closed"
    ∈ (Converter.convert_excel_to_csv w excel_file_path csv_folder_path).2 ↔
  ∃ es0 es1 xls,
    Converter.makedirs csv_folder_path (Converter.folder w) = Return es0 ∧
    Converter.clear_relevant (Converter.components (Converter.schema w))
      (Converter.listdir es0) es0 = (Return (), es1) ∧
    Converter.excel w = Return xls.
Proof.
  destruct (convert_run w excel_file_path csv_folder_path)
    as [e Hm|es0 es1 e Hm Hc|es0 es1 e Hm Hc Hx|es0 es1 xls e Hm Hc Hx pool Hcol
        |es0 es1 xls files Hm Hc Hx pool Hcol]; simpl.
  - split; [by intros ?%elem_of_nil|]. intros (? & ? & ? & ? & _). congruence.
  - split; [by intros ?%elem_of_nil|]. intros (? & ? & ? & ? & ? & _). congruence.
  - split; [by intros ?%list_elem_of_singleton|].
    intros (? & ? & ? & ? & ? & ?). congruence.
  - split; [intros _; by exists es0, es1, xls|]. intros _.
    apply elem_of_app. right. right. by left.
  - split; [intros _; by exists es0, es1, xls|]. intros _.
    apply elem_of_app. right. by left.
Qed.

(** ** The converter: the deletion loop on a folder of files *)

Section deletion.
Import Converter.
Implicit Types (allow : gset string) (es : entries).

Lemma clear_relevant_filter allow items es :
  NoDup items →
  (∀ i, i ∈ items → relevant allow i = true → ∃ c, dir_lookup i es = Some (File c)) →
  clear_relevant allow items es
    = (Return (), filter (λ p, ¬ (p.1 ∈ items ∧ relevant allow p.1 = true)) es).
Proof.
  intros Hnd. revert es. induction Hnd as [|item rest Hnotin Hnd IH]; intros es Hfiles.
  - simpl. f_equal. clear Hfiles. induction es as [|p es IHes]; [done|].
    rewrite filter_cons_True; [by f_equal|]. by intros [?%elem_of_nil _].
  - simpl. destruct (relevant allow item) eqn:Hrel.
    + destruct (Hfiles item) as [c Hc]; [by left|done|].
      unfold os_remove. rewrite Hc. rewrite IH.
      * f_equal. unfold dir_delete. rewrite list_filter_filter.
        apply list_filter_iff. intros [k v]. simpl. rewrite elem_of_cons. split.
        -- intros [Hn Hk] [[->|Hin] Hr]; [done|]. by apply Hn.
        -- intros Hn. split.
           ++ intros [Hin Hr]. apply Hn. split; [by right|done].
           ++ intros ->. apply Hn. split; [by left|done].
      * intros i Hi Hr. rewrite dir_lookup_delete.
        rewrite decide_False by (by intros ->). apply Hfiles; [by right|done].
    + rewrite IH.
      * f_equal. apply list_filter_iff. intros [k v]. simpl. rewrite elem_of_cons.
        split.
        -- intros Hn [[->|Hin] Hr]; [congruence|]. by apply Hn.
        -- intros Hn [Hin Hr]. apply Hn. split; [by right|done].
      * intros i Hi Hr. apply Hfiles; [by right|done].
Qed.

Lemma filter_iff_elem {A} (P Q : A → Prop) `{!∀ x, Decision (P x)}
    `{!∀ x, Decision (Q x)} (l : list A) :
  (∀ x, x ∈ l → (P x ↔ Q x)) → filter P l = filter Q l.
Proof.
  induction l as [|x l IH]; intros Hext; [done|].
  rewrite !filter_cons. rewrite IH by (intros y Hy; apply Hext; by right).
  destruct (Hext x) as [H1 H2]; [by left|]. repeat case_decide; tauto || done.
Qed.

Lemma filter_listed allow es :
  filter (λ p, ¬ (p.1 ∈ listdir es ∧ relevant allow p.1 = true)) es
    = filter (λ p, relevant allow p.1 = false) es.
Proof.
  apply filter_iff_elem. intros [k v] Hin. simpl.
  assert (k ∈ listdir es) by (apply list_elem_of_fmap; by exists (k, v)).
  destruct (relevant allow k); split; [|done|done|]; intros H'; [|by intros [_ ?]].
  exfalso. by apply H'.
Qed.

Lemma listed_lookup es name : name ∈ listdir es → is_Some (dir_lookup name es).
Proof. apply assoc_is_Some. Qed.

End deletion.

(** X8: on a folder in which no two entries share a name and no entry
    selected by the deletion test is a directory, the deletion loop does
    not raise and leaves exactly the entries the test does not select, in
    their order and with their contents. *)
Theorem clear_relevant_files (allow : gset string) (es : Converter.entries) :
  NoDup (Converter.listdir es) →
  (∀ name, Converter.relevant allow name = true →
           Converter.dir_lookup name es ≠ Some Converter.Subdir) →
  Converter.clear_relevant allow (Converter.listdir es) es
    = (Return (), filter (λ p, Converter.relevant allow p.1 = false) es).
Proof.
  intros Hnd Hfiles. rewrite clear_relevant_filter; [by rewrite filter_listed|done|].
  intros i Hi Hr. destruct (listed_lookup es i Hi) as [[c|] Hl]; [by exists c|].
  by destruct (Hfiles i Hr).
Qed.

Lemma clear_relevant_files_witness :
  Converter.clear_relevant (Converter.components Examples.teaching_catalogue)
      (Converter.listdir Examples.used_folder) Examples.used_folder
    = (Return (),
       filter (λ p, Converter.relevant
                      (Converter.components Examples.teaching_catalogue) p.1 = false)
         Examples.used_folder).
Proof.
  apply (clear_relevant_files (Converter.components Examples.teaching_catalogue)
           Examples.used_folder).
  - by_computation.
  - intros name _. unfold Converter.dir_lookup, Examples.used_folder. simpl.
    repeat case_decide; discriminate.
Defined.

(** X9: a directory whose name the deletion test selects stops the loop:
    if the listing holds such a name, the loop raises and the call of the
    converter raises with it, before the workbook is opened. *)
Theorem clear_relevant_blocked (w : Converter.world)
    (excel_file_path csv_folder_path : string) (es : Converter.entries) (name : string) :
  Converter.folder w = Converter.Directory es →
  Converter.relevant (Converter.components (Converter.schema w)) name = true →
  Converter.dir_lookup name es = Some Converter.Subdir →
  raises (Converter.clear_relevant (Converter.components (Converter.schema w))
            (Converter.listdir es) es).1 ∧
  raises (Converter.convert_excel_to_csv w excel_file_path csv_folder_path).1.1 ∧
  (Converter.convert_excel_to_csv w excel_file_path csv_folder_path).2 = [].
Proof.
  intros Hf Hrel Hsub.
  assert (Hin : name ∈ Converter.listdir es).
  { destruct (decide (name ∈ Converter.listdir es)) as [?|Hn]; [done|].
    apply dir_lookup_unlisted in Hn. congruence. }
  assert (Hraise : ∀ items es',
            name ∈ items → Converter.dir_lookup name es' = Some Converter.Subdir →
            raises (Converter.clear_relevant
                      (Converter.components (Converter.schema w)) items es').1).
  { induction items as [|item rest IH]; intros es' Hi Hl; [by apply elem_of_nil in Hi|].
    simpl. destruct (decide (item = name)) as [->|Hne].
    - rewrite Hrel. unfold Converter.os_remove. rewrite Hl. by eexists.
    - apply elem_of_cons in Hi as [->|Hi]; [done|].
      destruct (Converter.relevant _ item); [|by apply IH].
      destruct (Converter.os_remove item es') as [es1|e] eqn:Hrm; [|by eexists].
      apply os_remove_Return in Hrm as ->. apply IH; [done|].
      rewrite dir_lookup_delete. by rewrite decide_False. }
  specialize (Hraise _ es Hin Hsub). split; [done|].
  destruct Hraise as [e He].
  unfold Converter.convert_excel_to_csv. rewrite Hf. simpl.
  destruct (Converter.clear_relevant _ _ es) as [o es1]. simpl in He. subst o.
  split; [by exists e | done].
Qed.

Lemma clear_relevant_blocked_witness :
  raises (Converter.convert_excel_to_csv Examples.blocked_world "model.xlsx" "csv").1.1.
Proof.
  destruct (clear_relevant_blocked Examples.blocked_world "model.xlsx" "csv"
              [("buses.csv", Converter.Subdir)] "buses.csv") as (_ & H & _).
  - reflexivity.
  - vm_compute. reflexivity.
  - reflexivity.
  - exact H.
Defined.

(** ** The converter: the allow-list *)

Lemma elem_of_varying_with_status io c a :
  a ∈ varying_with_status io c ↔
  ∃ r, r ∈ attrs c ∧ attr_name r = a ∧
       contains io (status r) = true ∧ varying r = true.
Proof.
  unfold varying_with_status. rewrite list_elem_of_fmap. split.
  - intros (r & -> & [[? ?]%andb_true_iff ?]%list_elem_of_filter). by exists r.
  - intros (r & Hin & <- & Hc & Hv). exists r. split; [done|].
    apply list_elem_of_filter. split; [|done]. by rewrite Hc, Hv.
Qed.

Lemma varying_with_status_nil io c :
  varying_with_status io c = [] ↔
  ∀ r, r ∈ attrs c → ¬ (contains io (status r) = true ∧ varying r = true).
Proof.
  split.
  - intros Hnil r Hr [Hc Hv].
    assert (Hin : attr_name r ∈ varying_with_status io c)
      by (apply elem_of_varying_with_status; by exists r).
    rewrite Hnil in Hin. by apply elem_of_nil in Hin.
  - intros Hno. destruct (varying_with_status io c) as [|a l] eqn:Hv; [done|].
    assert (Hin : a ∈ varying_with_status io c) by (rewrite Hv; by left).
    apply elem_of_varying_with_status in Hin as (r & Hr & _ & Hc & Hvar).
    by destruct (Hno r Hr).
Qed.

(** X10: the names of the allow-list, read off the catalogue.  A name is
    allowed exactly when some component either has no attribute that is
    both an input and time-varying and the name is its list name, or has
    such an attribute and the name is the list name, a hyphen and the
    attribute name (the bare list name if the attribute name is empty).
    A component with a time-varying input thus gives no bare name. *)
Theorem allow_list_names (n : catalogue) (x : string) :
  x ∈ Converter.components n ↔
  ∃ c, c ∈ n ∧
    (((∀ r, r ∈ attrs c →
            ¬ (contains "Input" (status r) = true ∧ varying r = true)) ∧
      x = list_name c) ∨
     (∃ r, r ∈ attrs c ∧ contains "Input" (status r) = true ∧ varying r = true ∧
           x = if decide (attr_name r = "") then list_name c
               else list_name c +:+ "-" +:+ attr_name r)).
Proof.
  rewrite elem_of_components. split.
  - intros (c & Hc & Hx). exists c. split; [done|].
    apply elem_of_component_names in Hx as [[Hnil ->]|(a & Ha & ->)].
    + left. split; [|done]. by apply varying_with_status_nil.
    + right. apply elem_of_varying_with_status in Ha as (r & Hr & <- & Hi & Hv).
      by exists r.
  - intros (c & Hc & Hx). exists c. split; [done|].
    apply elem_of_component_names. destruct Hx as [[Hno ->]|(r & Hr & Hi & Hv & ->)].
    + left. split; [|done]. by apply varying_with_status_nil.
    + right. exists (attr_name r). split; [|done].
      apply elem_of_varying_with_status. by exists r.
Qed.

(** ** The converter: a second call on the result of the first *)

Section again.
Import Converter.
Implicit Types (allow : gset string) (es : entries) (xls : workbook).

Lemma clear_relevant_sublist allow items es :
  (clear_relevant allow items es).2 `sublist_of` es.
Proof.
  revert es. induction items as [|item rest IH]; intros es; simpl; [done|].
  destruct (relevant allow item); [|apply IH].
  destruct (os_remove item es) as [es1|e] eqn:Hrm; [|done].
  apply os_remove_Return in Hrm as ->. etrans; [apply IH|].
  apply sublist_filter.
Qed.

Lemma unlisted_lookup es name : dir_lookup name es = None → name ∉ listdir es.
Proof. intros Hl [e He]%listed_lookup. congruence. Qed.

Lemma listdir_write name content es :
  listdir (dir_write name content es)
    = match dir_lookup name es with
      | Some _ => listdir es
      | None => listdir es ++ [name]
      end.
Proof.
  unfold dir_write, listdir. destruct (dir_lookup name es).
  - rewrite <- list_fmap_compose. apply list_fmap_ext. intros _ [k v] _. simpl.
    by case_decide.
  - by rewrite fmap_app.
Qed.

Lemma dir_write_NoDup name content es :
  NoDup (listdir es) → NoDup (listdir (dir_write name content es)).
Proof.
  intros Hnd. rewrite listdir_write. destruct (dir_lookup name es) eqn:Hl; [done|].
  apply NoDup_app. split; [done|]. split; [|apply NoDup_singleton].
  intros x Hx ->%list_elem_of_singleton. by apply unlisted_lookup in Hl.
Qed.

Lemma run_pool_NoDup xls f tasks es :
  NoDup (listdir es) → NoDup (listdir (run_pool xls f tasks es).1.2).
Proof.
  revert es. induction tasks as [|s tasks IH]; intros es Hnd; [done|].
  rewrite run_pool_cons. simpl. apply IH.
  destruct (convert_sheet_cases xls s f es) as [(t & _ & _ & ->)|(e & -> & _)];
    simpl; [|done].
  by apply dir_write_NoDup.
Qed.

(** A pool whose sheets all parse and find no directory in their way has
    no failed future. *)
Lemma run_pool_ok xls f tasks es :
  (∀ s, s ∈ tasks → (∃ t, parse xls s = Return t) ∧
                    dir_lookup (csv_name s) es ≠ Some Subdir) →
  ∀ e, Raise e ∉ (run_pool xls f tasks es).1.1.
Proof.
  revert es. induction tasks as [|s0 tasks IH]; intros es Hall e.
  { by intros ?%elem_of_nil. }
  rewrite run_pool_cons. simpl.
  destruct (Hall s0) as [[t0 Hp0] Hl0]; [by left|].
  destruct (convert_sheet_writes xls s0 f t0 es Hp0 Hl0) as (Hr & Hw & Hother & _).
  intros [Hhd|Htl]%elem_of_cons.
  - rewrite Hr in Hhd. done.
  - revert Htl. apply IH. intros s Hs. destruct (Hall s) as [Hp Hl]; [by right|].
    split; [done|]. destruct (decide (csv_name s = csv_name s0)) as [Heq|Hne].
    + rewrite Heq, Hw. done.
    + by rewrite Hother.
Qed.

Lemma collect_ok created futures :
  (∀ e, Raise e ∉ futures) → ∃ files, collect created futures = Return files.
Proof.
  revert created. induction futures as [|[p|e] futures IH]; intros created Hok; simpl.
  - by eexists.
  - apply IH. intros e He. apply (Hok e). by right.
  - destruct (Hok e). by left.
Qed.

End again.

(** X11: converting again changes nothing.  If a call on a folder whose
    entries have distinct names returned the folder path, a second call
    with the same catalogue and workbook on the folder the first one left
    returns the folder path as well, and every name holds after it what it
    held after the first. *)
Theorem convert_twice (w : Converter.world) (excel_file_path csv_folder_path : string) :
  (∀ es, Converter.folder w = Converter.Directory es → NoDup (Converter.listdir es)) →
  (Converter.convert_excel_to_csv w excel_file_path csv_folder_path).1.1
    = Return (Converter.PyStr csv_folder_path) →
  let first := (Converter.convert_excel_to_csv w excel_file_path csv_folder_path).1.2 in
  let w' := Converter.World (Converter.schema w) (Converter.excel w) first in
  (Converter.convert_excel_to_csv w' excel_file_path csv_folder_path).1.1
    = Return (Converter.PyStr csv_folder_path) ∧
  ∀ name,
    node_lookup name
      (Converter.convert_excel_to_csv w' excel_file_path csv_folder_path).1.2
    = node_lookup name first.
Proof.
  intros Hnd.
  destruct (convert_run w excel_file_path csv_folder_path)
    as [e Hm|es0 es1 e Hm Hc|es0 es1 e Hm Hc Hx|es0 es1 xls e Hm Hc Hx pool Hcol
        |es0 es1 xls files Hm Hc Hx pool Hcol]; simpl; try done.
  intros _.
  set (allow := Converter.components (Converter.schema w)) in *.
  set (tasks := Converter.submitted allow xls) in *.
  set (es2 := pool.1.2).
  assert (Hnd0 : NoDup (Converter.listdir es0)).
  { destruct (Converter.folder w) as [| |es] eqn:Hf; simpl in Hm; simplify_eq.
    - constructor.
    - by apply Hnd. }
  assert (Hnd1 : NoDup (Converter.listdir es1)).
  { eapply sublist_NoDup; [exact Hnd0|]. apply fmap_sublist.
    replace es1 with (Converter.clear_relevant allow (Converter.listdir es0) es0).2
      by (by rewrite Hc).
    apply clear_relevant_sublist. }
  assert (Hnd2 : NoDup (Converter.listdir es2)) by (by apply run_pool_NoDup).
  assert (Hok : ∀ e, Raise e ∉ pool.1.1) by (by eapply collect_Return).
  assert (Hwritten : ∀ s, s ∈ tasks →
            ∃ t, Converter.parse xls s = Return t ∧
                 Converter.dir_lookup (csv_name s) es2 = Some (Converter.File t))
    by (intros s Hs; by apply run_pool_all_written).
  assert (Hother : ∀ name, (∀ s, s ∈ tasks → name ≠ csv_name s) →
            Converter.dir_lookup name es2
            = if Converter.relevant allow name then None
              else Converter.dir_lookup name es0).
  { intros name Hn. unfold es2, pool. rewrite run_pool_lookup_other by done.
    apply (clear_listing_lookup _ _ _ name Hc). }
  assert (Htarget : ∀ name, (∃ s, s ∈ tasks ∧ name = csv_name s) ∨
                            (∀ s, s ∈ tasks → name ≠ csv_name s)).
  { intros name. destruct (decide (name ∈ csv_name <$> tasks)) as [Hin|Hn].
    - left. apply list_elem_of_fmap in Hin as (s & -> & Hs). by exists s.
    - right. intros s Hs ->. apply Hn. apply list_elem_of_fmap. by exists s. }
  assert (Hfiles : ∀ name, Converter.relevant allow name = true →
            Converter.dir_lookup name es2 ≠ Some Converter.Subdir).
  { intros name Hr. destruct (Htarget name) as [(s & Hs & ->)|Hn].
    - destruct (Hwritten s Hs) as (t & _ & ->). done.
    - rewrite Hother by done. by rewrite Hr. }
  pose proof (clear_relevant_files allow es2 Hnd2 Hfiles) as Hc2.
  set (es1' := filter (λ p, Converter.relevant allow p.1 = false) es2) in Hc2.
  assert (Hl1' : ∀ name, Converter.dir_lookup name es1'
                 = if Converter.relevant allow name then None
                   else Converter.dir_lookup name es2)
    by (intros name; apply (clear_listing_lookup _ _ _ name Hc2)).
  assert (Hok2 : ∀ e, Raise e ∉ (Converter.run_pool xls csv_folder_path tasks es1').1.1).
  { apply run_pool_ok. intros s Hs. destruct (Hwritten s Hs) as (t & Hp & Hl).
    split; [by exists t|]. rewrite Hl1', Hl. by destruct (Converter.relevant allow _). }
  set (w' := Converter.World (Converter.schema w) (Converter.excel w)
               (Converter.Directory es2)).
  destruct (convert_run w' excel_file_path csv_folder_path)
    as [e Hm'|es0' es1'' e Hm' Hc'|es0' es1'' e Hm' Hc' Hx'
        |es0' es1'' xls' e Hm' Hc' Hx' pool' Hcol'
        |es0' es1'' xls' files' Hm' Hc' Hx' pool' Hcol']; simpl in *.
  - done.
  - injection Hm' as <-. fold allow in Hc'. congruence.
  - congruence.
  - exfalso. injection Hm' as <-. fold allow in Hc'.
    assert (es1'' = es1') as -> by congruence.
    assert (xls' = xls) as -> by congruence.
    apply collect_Raise_elem in Hcol'. by apply (Hok2 e).
  - injection Hm' as <-. fold allow in Hc'.
    assert (es1'' = es1') as -> by congruence.
    assert (xls' = xls) as -> by congruence.
    split; [done|]. intros name. unfold pool'. fold allow. fold tasks.
    destruct (Htarget name) as [(s & Hs & ->)|Hn].
    + destruct (Hwritten s Hs) as (t & Hp & ->).
      destruct (run_pool_all_written xls csv_folder_path tasks es1' s Hok2 Hs)
        as (t' & Hp' & ->). congruence.
    + rewrite run_pool_lookup_other by done. rewrite Hl1'.
      destruct (Converter.relevant allow name) eqn:Hr; [|done].
      rewrite Hother by done. by rewrite Hr.
Qed.

Lemma convert_twice_witness :
  (Converter.convert_excel_to_csv
     (Converter.World Examples.teaching_catalogue (Return Examples.teaching_workbook)
        (Converter.convert_excel_to_csv Examples.used_world "model.xlsx" "csv").1.2)
     "model.xlsx" "csv").1.1
  = Return (Converter.PyStr "csv").
Proof.
  destruct (convert_twice Examples.used_world "model.xlsx" "csv") as [H _].
  - intros es [= <-]. by_computation.
  - vm_compute. reflexivity.
  - exact H.
Defined.

(** ** The prober: every run *)

Section every_run.
Import Prober.
Variable optimize : backend.

(** The candidate list splits at the first working solver, or has none. *)
Lemma candidates_split (l : list string) :
  (∃ pre s post, l = pre ++ s :: post ∧
                 (∀ c, c ∈ pre → raises (optimize c)) ∧ returns (optimize s)) ∨
  (∀ c, c ∈ l → raises (optimize c)).
Proof.
  induction l as [|c l IH].
  - right. by intros c ?%elem_of_nil.
  - destruct (optimize c) as [solved|e] eqn:Hc.
    + left. exists [], c, l. split; [done|]. split; [by intros ? ?%elem_of_nil|].
      by exists solved.
    + destruct IH as [(pre & s & post & -> & Hpre & Hs)|Hall].
      * left. exists (c :: pre), s, post. split; [done|]. split; [|done].
        intros c' [->|?]%elem_of_cons; [by exists e | by apply Hpre].
      * right. intros c' [->|?]%elem_of_cons; [by exists e | by apply Hall].
Qed.

(** Each attempt is announced, and each failure is reported with the
    message of its exception. *)
Lemma try_solvers_printed (l : list string) c :
  c ∈ attempts (try_solvers optimize l).2 →
  ("Testing solver: " +:+ c) ∈ printed (try_solvers optimize l).2 ∧
  ∀ e, optimize c = Raise e →
       ("Solver " +:+ c +:+ " failed: " +:+ exn_message e)
         ∈ printed (try_solvers optimize l).2.
Proof.
  induction l as [|c0 l IH]; [by intros ?%elem_of_nil|].
  simpl. unfold simple_network. destruct (optimize c0) as [solved|e0] eqn:Hc0.
  - simpl. intros ->%list_elem_of_singleton. split; [by left|]. congruence.
  - destruct (try_solvers optimize l) as [r ev'] eqn:Ht. simpl in *.
    intros [->|Hin]%elem_of_cons.
    + split; [by left|]. intros e He. right.
      assert (e = e0) as -> by congruence. by left.
    + destruct (IH Hin) as [H1 H2]. split.
      * right. by right.
      * intros e He. right. right. by apply H2.
Qed.

(** The events of [solver_selected] are those of the loop, then one
    printed line. *)
Lemma solver_selected_trace :
  ∃ line, (solver_selected optimize).2
          = (try_solvers optimize solver_options).2 ++ [Print line].
Proof.
  unfold solver_selected, find_solver. rewrite <- find_solver_in_snd.
  pose proof (find_solver_in_fst optimize solver_options) as Hf.
  destruct (find_solver_in optimize solver_options) as [[r|e] ev];
    cbn [fst snd] in Hf; simpl.
  - by eexists.
  - destruct ((try_solvers optimize solver_options).1); [done|].
    injection Hf as ->. by eexists.
Qed.

End every_run.

(** X12: what a returned solver tells.  If [find_solver] returns [s] on a
    candidate list, the list splits into candidates that all failed, then
    [s], whose solve did not raise, then the rest; the back end was called
    on the failed ones and on [s], in this order, and on nothing after. *)
Theorem find_solver_sound (optimize : Prober.backend) (l : list string) (s : string) :
  (Prober.find_solver_in optimize l).1 = Return s →
  ∃ pre post,
    l = pre ++ s :: post ∧
    (∀ c, c ∈ pre → raises (optimize c)) ∧
    returns (optimize s) ∧
    Prober.attempts (Prober.find_solver_in optimize l).2 = pre ++ [s].
Proof.
  rewrite find_solver_in_fst, find_solver_in_snd.
  destruct (candidates_split optimize l) as [(pre & s' & post & -> & Hpre & Hs)|Hall].
  - destruct (try_solvers_first optimize pre s' post Hpre Hs) as [-> ->].
    intros [= <-]. by exists pre, post.
  - destruct (try_solvers_none optimize l Hall) as [-> _]. done.
Qed.

Lemma find_solver_sound_witness :
  ∃ pre post,
    Prober.solver_options = pre ++ "highs" :: post ∧
    Prober.attempts (Prober.find_solver Examples.backend_highs).2 = pre ++ ["highs"].
Proof.
  destruct (find_solver_sound Examples.backend_highs Prober.solver_options "highs")
    as (pre & post & Hl & _ & _ & Ha).
  - reflexivity.
  - exists pre, post. split; [exact Hl | exact Ha].
Defined.

(** X13: the two ways [solver_selected] ends.  Either it returns one of
    the five candidates, and the solve of that candidate did not raise; or
    every candidate failed and it raises [UnboundLocalError] for its local
    [solver].  It never returns a solver whose solve raised, never a name
    outside the list, and the [ValueError] of [find_solver] never reaches
    the caller. *)
Theorem solver_selected_outcomes (optimize : Prober.backend) :
  (∃ s, (Prober.solver_selected optimize).1 = Return s ∧
        s ∈ Prober.solver_options ∧ returns (optimize s)) ∨
  ((Prober.solver_selected optimize).1 = Raise (UnboundLocalError "solver") ∧
   ∀ c, c ∈ Prober.solver_options → raises (optimize c)).
Proof.
  unfold Prober.solver_selected, Prober.find_solver.
  destruct (candidates_split optimize Prober.solver_options)
    as [(pre & s & post & Hl & Hpre & Hs)|Hall].
  - left. exists s.
    destruct (try_solvers_first optimize pre s post Hpre Hs) as [Hr _].
    rewrite <- Hl in Hr.
    pose proof (find_solver_in_fst optimize Prober.solver_options) as Hf.
    rewrite Hr in Hf.
    destruct (Prober.find_solver_in optimize Prober.solver_options) as [r ev].
    simpl in Hf. subst r. split; [done|]. split; [|done].
    rewrite Hl. apply elem_of_app. right. by left.
  - right. split; [|done].
    destruct (try_solvers_none optimize _ Hall) as [Hr _].
    pose proof (find_solver_in_fst optimize Prober.solver_options) as Hf.
    rewrite Hr in Hf.
    destruct (Prober.find_solver_in optimize Prober.solver_options) as [r ev].
    simpl in Hf. by subst r.
Qed.

(** X14: the back end is called on an initial stretch of the candidate
    list and on nothing else: at most five calls in a run, no candidate
    twice. *)
Theorem attempts_prefix (optimize : Prober.backend) :
  Prober.attempts (Prober.solver_selected optimize).2 `prefix_of` Prober.solver_options ∧
  length (Prober.attempts (Prober.solver_selected optimize).2) ≤ 5 ∧
  NoDup (Prober.attempts (Prober.solver_selected optimize).2).
Proof.
  assert (Hpre : Prober.attempts (Prober.solver_selected optimize).2
                 `prefix_of` Prober.solver_options).
  { assert (Ha : Prober.attempts (Prober.solver_selected optimize).2
                 = Prober.attempts (Prober.try_solvers optimize Prober.solver_options).2).
    { unfold Prober.solver_selected, Prober.find_solver.
      rewrite <- find_solver_in_snd.
      destruct (Prober.find_solver_in optimize Prober.solver_options) as [[r|[]] ev];
        simpl; rewrite ?attempts_app; simpl; by rewrite ?app_nil_r. }
    rewrite Ha.
    destruct (candidates_split optimize Prober.solver_options)
      as [(pre & s & post & Hl & Hp & Hs)|Hall].
    - destruct (try_solvers_first optimize pre s post Hp Hs) as [_ Hat].
      rewrite <- Hl in Hat. rewrite Hat, Hl.
      apply prefix_app. by exists post.
    - destruct (try_solvers_none optimize _ Hall) as [_ ->]. done. }
  split; [done|]. split.
  - apply prefix_length in Hpre. exact Hpre.
  - destruct Hpre as [k Hk].
    assert (Hnd : NoDup Prober.solver_options) by (by apply (bool_decide_unpack _)).
    rewrite Hk in Hnd. by apply NoDup_app in Hnd as [? _].
Qed.

(** X15: no attempt is silent.  Every candidate the back end was called
    on is announced on the console, and every candidate that failed is
    reported there with the message of its exception. *)
Theorem attempts_reported (optimize : Prober.backend) (c : string) :
  c ∈ Prober.attempts (Prober.solver_selected optimize).2 →
  ("Testing solver: " +:+ c) ∈ Prober.printed (Prober.solver_selected optimize).2 ∧
  ∀ e, optimize c = Raise e →
       ("Solver " +:+ c +:+ " failed: " +:+ exn_message e)
         ∈ Prober.printed (Prober.solver_selected optimize).2.
Proof.
  destruct (solver_selected_trace optimize) as [line ->].
  rewrite attempts_app, printed_app, app_nil_r. intros Hin.
  destruct (try_solvers_printed optimize _ c Hin) as [H1 H2]. split.
  - apply elem_of_app. by left.
  - intros e He. apply elem_of_app. left. by apply H2.
Qed.

Lemma attempts_reported_witness :
  "Solver gurobi failed: not installed"
    ∈ Prober.printed (Prober.solver_selected Examples.backend_highs).2.
Proof.
  destruct (attempts_reported Examples.backend_highs "gurobi") as [_ H].
  - by_computation.
  - apply (H (LibraryError "not installed")). reflexivity.
Defined.

(** ** The viewer: handlers and sessions *)

Section handlers.
Import Viewer.
Implicit Types (net : network) (val : component) (st : state) (c : click).

(** What a handler can do to the record: leave it, store a selection of
    columns of the component's table, store a time series of the
    component, or, in plot mode on an empty series, clear it. *)
Lemma handle_state net c st :
  (handle net c st).1.2 = st ∨
  (∃ names df, getitem (tables net (list_name (click_component c))) names = Return df ∧
               (handle net c st).1.2 = State (Some df) ∧
               (handle net c st).1.1 = Return ()) ∨
  (∃ var df, tables_t net (list_name (click_component c)) !! var = Some df ∧
             (handle net c st).1.1 = Return () ∧
             ((handle net c st).1.2 = State (Some df) ∨
              (empty df = true ∧ (handle net c st).1.2 = State None))).
Proof.
  destruct c as [val io_data type_var|val type_var var v]; simpl.
  - destruct type_var.
    + rewrite on_confirm_static_eq.
      destruct (valid_attributes net val io_data) as [|a l] eqn:Hv; [by left|].
      destruct (getitem _ (a :: l)) as [df|e] eqn:Hg; [|by left].
      right. left. by exists (a :: l), df.
    + unfold on_confirm_clicked.
      destruct (varying_attributes val io_data); by left.
  - unfold on_new_confirm_clicked. destruct type_var; [by left|].
    destruct (tables_t net (list_name val) !! var) as [df|] eqn:Hl; [|by left].
    right. right. exists var, df. split; [done|].
    destruct v; [|by split; [|left]].
    destruct (empty df) eqn:He; simpl; (split; [done|]); [right|left]; done.
Qed.

End handlers.

(** X16: exception safety of the handlers.  A press whose handler raises
    leaves the shared record as it was, and what it raises is the
    [IndexError] of the empty variable list or a [KeyError] of a missing
    column or variable. *)
Theorem handler_raise_keeps_record (net : Viewer.network) (c : Viewer.click)
    (st : Viewer.state) (e : exn) :
  (Viewer.handle net c st).1.1 = Raise e →
  (Viewer.handle net c st).1.2 = st ∧
  (e = IndexError "list index out of range" ∨ ∃ k, e = KeyError k).
Proof.
  destruct c as [val io_data type_var|val type_var var v]; simpl.
  - destruct type_var.
    + rewrite on_confirm_static_eq.
      destruct (Viewer.valid_attributes net val io_data) as [|a l] eqn:Hv; [done|].
      unfold Viewer.getitem.
      destruct (Viewer.pick (a :: l) _) as [cols|e'] eqn:Hp; [done|]. simpl.
      intros [= ->]. split; [done|]. right.
      destruct (decide (Forall (λ n, n ∈ (Viewer.df_columns
                  (Viewer.tables net (list_name val))).*1) (a :: l))) as [Hall|Hex].
      * rewrite Forall_forall in Hall.
        destruct (pick_Return _ _ Hall) as (r & Hr & _). congruence.
      * apply not_Forall_Exists in Hex; [|apply _].
        apply Exists_exists in Hex as (n & Hn & Hnot).
        destruct (pick_Raise _ _ n Hn Hnot) as (k & Hk & _). exists k. congruence.
    + unfold Viewer.on_confirm_clicked.
      destruct (Viewer.varying_attributes val io_data); [|done].
      intros [= <-]. split; [done | by left].
  - unfold Viewer.on_new_confirm_clicked. destruct type_var; [done|].
    destruct (Viewer.tables_t net (list_name val) !! var) as [df|].
    + destruct v; [|done]. by destruct (Viewer.empty df).
    + intros [= <-]. split; [done|]. right. by eexists.
Qed.

Lemma handler_raise_keeps_record_witness :
  (Viewer.handle Examples.teaching_network
     (Viewer.Confirm Examples.Bus Viewer.Input Viewer.static)
     (Viewer.State (Some Examples.loads_p_set))).1.2
  = Viewer.State (Some Examples.loads_p_set).
Proof.
  destruct (handler_raise_keeps_record Examples.teaching_network
              (Viewer.Confirm Examples.Bus Viewer.Input Viewer.static)
              (Viewer.State (Some Examples.loads_p_set)) (KeyError "carrier"))
    as [H _].
  - vm_compute. reflexivity.
  - exact H.
Defined.

(** X17: whatever buttons are pressed, with components of the network in
    the dropdown, a record that holds nothing or a table of the network
    still does so afterwards: the viewer never stores anything but a
    column selection of a static table or a time series of the network. *)
Theorem session_record_ok (net : Viewer.network) (cs : list Viewer.click)
    (st0 : Viewer.state) :
  Forall (λ c, click_component c ∈ Viewer.all_components net) cs →
  record_ok net st0 →
  record_ok net (Viewer.session net cs st0).
Proof.
  intros Hcs. revert st0. induction Hcs as [|c cs Hc _ IH]; intros st0 Hok; [done|].
  simpl. apply IH. intros df Hdf.
  destruct (handle_state net c st0)
    as [Hs|[(names & df' & Hg & Hs & _)|(var & df' & Hl & _ & [Hs|[_ Hs]])]];
    rewrite Hs in Hdf.
  - by apply Hok.
  - injection Hdf as <-. left. by exists (click_component c), names.
  - injection Hdf as <-. right. by exists (click_component c), var.
  - done.
Qed.

Lemma session_record_ok_witness :
  record_ok Examples.teaching_network
    (Viewer.session Examples.teaching_network
       [Viewer.Confirm Examples.Load Viewer.Input Viewer.varying;
        Viewer.NewConfirm Examples.Load Viewer.varying "p_set" Viewer.Table;
        Viewer.Confirm Examples.Generator Viewer.Input Viewer.static]
       (Viewer.State None)).
Proof.
  apply (session_record_ok Examples.teaching_network).
  - repeat constructor; by_computation.
  - intros df [=].
Defined.

(** X18: the two levels fit.  When the network holds a series for every
    time-varying attribute the first-level confirmation offers, that
    confirmation displays the second-level widgets with these attributes
    as options, the first of them selected and 'Plot' as view, without
    touching the record or clearing the output; and the second-level
    confirmation of any offered variable, in either view, returns
    normally. *)
Theorem offered_variables_confirm (net : Viewer.network) (val : component)
    (io_data : Viewer.direction) (st : Viewer.state) (first : string)
    (rest : list string) :
  Viewer.varying_attributes val io_data = first :: rest →
  (∀ a, a ∈ first :: rest → is_Some (Viewer.tables_t net (list_name val) !! a)) →
  Viewer.on_confirm_clicked net val io_data Viewer.varying st
    = (Return (), st, [Viewer.DisplaySecondLevel (first :: rest) first Viewer.Plot]) ∧
  ∀ var v st', var ∈ first :: rest →
    (Viewer.on_new_confirm_clicked net val Viewer.varying var v st').1.1 = Return ().
Proof.
  intros Hv Hall. split.
  - unfold Viewer.on_confirm_clicked. by rewrite Hv.
  - intros var v st' Hin. destruct (Hall var Hin) as [df Hdf].
    unfold Viewer.on_new_confirm_clicked. rewrite Hdf.
    destruct v; [|done]. by destruct (Viewer.empty df).
Qed.

Lemma offered_variables_confirm_witness :
  Viewer.on_confirm_clicked Examples.teaching_network Examples.Load Viewer.Input
      Viewer.varying (Viewer.State None)
    = (Return (), Viewer.State None,
       [Viewer.DisplaySecondLevel ["p_set"] "p_set" Viewer.Plot]).
Proof.
  destruct (offered_variables_confirm Examples.teaching_network Examples.Load
              Viewer.Input (Viewer.State None) "p_set" []) as [H _].
  - reflexivity.
  - intros a ->%list_elem_of_singleton. vm_compute. by eexists.
  - exact H.
Defined.

(** X19: what [pypsa_viewer] shows first.  Without a component it raises
    [IndexError] after clearing the output.  With components it returns
    an empty record and shows, after clearing the output, a dropdown whose
    options are the component names in ascending order, each as often as
    the network lists it, with the least name selected. *)
Theorem pypsa_viewer_selectors (net : Viewer.network) :
  (Viewer.all_components net = [] →
   Viewer.pypsa_viewer net
     = (Raise (IndexError "list index out of range"), [Viewer.ClearOutput])) ∧
  (Viewer.all_components net ≠ [] →
   ∃ options first,
     Viewer.pypsa_viewer net
       = (Return (Viewer.State None),
          [Viewer.ClearOutput; Viewer.DisplaySelectors options first]) ∧
     options ≡ₚ key <$> Viewer.all_components net ∧
     Sorted String.le options ∧
     head options = Some first ∧
     ∀ k, k ∈ key <$> Viewer.all_components net → String.le first k).
Proof.
  unfold Viewer.pypsa_viewer. split.
  - intros ->. done.
  - intros Hne.
    pose proof (merge_sort_Permutation String.le (key <$> Viewer.all_components net))
      as Hperm.
    pose proof (StronglySorted_merge_sort String.le (key <$> Viewer.all_components net))
      as Hsorted.
    destruct (merge_sort String.le (key <$> Viewer.all_components net))
      as [|first options] eqn:Hm.
    + apply Permutation_nil_l in Hperm. symmetry in Hperm.
      by apply fmap_nil_inv in Hperm.
    + exists (first :: options), first. split; [done|]. split; [done|].
      split; [by apply StronglySorted_Sorted|]. split; [done|].
      intros k Hk. rewrite <- Hperm in Hk.
      apply elem_of_cons in Hk as [->|Hk]; [done|].
      apply StronglySorted_inv in Hsorted as [_ Hall].
      by apply (proj1 (Forall_forall _ _) Hall).
Qed.

(** X20: no empty chart.  A figure is shown by the second-level handler
    in plot mode only, and it is the plot of a series of the network that
    has at least one snapshot and one column: it has one line per column,
    which carries the label and the cells of that column over the
    snapshots of the series.  When every column of the series has one cell
    per snapshot, every line has a value at every snapshot. *)
Theorem shown_figure_not_empty (net : Viewer.network) (c : Viewer.click)
    (st : Viewer.state) (fig : Viewer.figure) :
  Viewer.ShowFigure fig ∈ (Viewer.handle net c st).2 →
  ∃ val var df,
    c = Viewer.NewConfirm val Viewer.varying var Viewer.Plot ∧
    Viewer.tables_t net (list_name val) !! var = Some df ∧
    Viewer.df_index df ≠ [] ∧ Viewer.df_columns df ≠ [] ∧
    Viewer.fig_traces fig ≠ [] ∧
    (λ t, (Viewer.tr_name t, Viewer.tr_y t)) <$> Viewer.fig_traces fig
      = Viewer.df_columns df ∧
    Forall (λ t, Viewer.tr_x t = Viewer.df_index df ∧ Viewer.tr_x t ≠ [] ∧
                 Viewer.tr_mode t = "lines") (Viewer.fig_traces fig) ∧
    (Forall (λ col, length col.2 = length (Viewer.df_index df)) (Viewer.df_columns df) →
     Forall (λ t, Viewer.tr_y t ≠ [] ∧
                  length (Viewer.tr_y t) = length (Viewer.tr_x t))
       (Viewer.fig_traces fig)).
Proof.
  assert (Hnone : ∀ evs : list Viewer.event,
            Forall (λ ev, ∀ f, ev ≠ Viewer.ShowFigure f) evs →
            Viewer.ShowFigure fig ∈ evs → False).
  { intros evs HF Hin. rewrite Forall_forall in HF. by apply (HF _ Hin fig). }
  destruct c as [val io_data type_var|val type_var var v]; simpl.
  - intros Hin. exfalso. revert Hin. apply Hnone. destruct type_var.
    + rewrite on_confirm_static_eq.
      destruct (Viewer.valid_attributes net val io_data) as [|a l];
        [by repeat constructor|].
      destruct (Viewer.getitem _ _); by repeat constructor.
    + unfold Viewer.on_confirm_clicked.
      destruct (Viewer.varying_attributes val io_data); by repeat constructor.
  - unfold Viewer.on_new_confirm_clicked.
    destruct type_var;
      [intros Hin; exfalso; revert Hin; apply Hnone; by repeat constructor|].
    destruct (Viewer.tables_t net (list_name val) !! var) as [df|] eqn:Hfetch;
      [|intros Hin; exfalso; revert Hin; apply Hnone; by repeat constructor].
    destruct v;
      [|intros Hin; exfalso; revert Hin; apply Hnone; by repeat constructor].
    destruct (Viewer.empty df) eqn:He;
      [intros Hin; exfalso; revert Hin; apply Hnone; by repeat constructor|].
    intros [?|[[= ->]|?%elem_of_nil]%elem_of_cons]%elem_of_cons; [done| |done].
    exists val, var, df. split; [done|]. split; [done|].
    pose proof (plot_data val var df) as Hd.
    destruct (plot_traces val var df) as [_ HF].
    assert (Hi : Viewer.df_index df ≠ []).
    { unfold Viewer.empty in He. by destruct (Viewer.df_index df). }
    assert (Hc : Viewer.df_columns df ≠ []).
    { unfold Viewer.empty in He.
      destruct (Viewer.df_index df); [done|]. by destruct (Viewer.df_columns df). }
    split; [done|]. split; [done|]. split; [|split; [done|split]].
    + intros Hnil. rewrite Hnil in Hd. by symmetry in Hd.
    + eapply Forall_impl; [exact HF|]. intros t [Hm Hx]. by rewrite Hx.
    + intros Hrect. rewrite Forall_forall in Hrect. rewrite Forall_forall in HF.
      apply Forall_forall.
      intros t Ht. destruct (HF t Ht) as [_ Hx].
      assert (Hin : (Viewer.tr_name t, Viewer.tr_y t) ∈ Viewer.df_columns df).
      { rewrite <- Hd. apply list_elem_of_fmap. by exists t. }
      specialize (Hrect _ Hin). simpl in Hrect. rewrite Hx, Hrect. split; [|done].
      intros Hy. rewrite Hy in Hrect. simpl in Hrect.
      by destruct (Viewer.df_index df).
Qed.

(** The plot of the load series: one line, Load1, with its three values
    over the three snapshots. *)
Lemma shown_figure_not_empty_witness :
  (λ t, (Viewer.tr_name t, Viewer.tr_y t))
    <$> Viewer.fig_traces (Viewer.plot Examples.Load "p_set" Examples.loads_p_set)
  = [("Load1", ["10"; "15"; "20"])] ∧
  Forall (λ t, Viewer.tr_y t ≠ [] ∧
               length (Viewer.tr_y t) = length (Viewer.tr_x t))
    (Viewer.fig_traces (Viewer.plot Examples.Load "p_set" Examples.loads_p_set)).
Proof.
  destruct (shown_figure_not_empty Examples.teaching_network
              (Viewer.NewConfirm Examples.Load Viewer.varying "p_set" Viewer.Plot)
              (Viewer.State None)
              (Viewer.plot Examples.Load "p_set" Examples.loads_p_set))
    as (val & var & df & Hc & Hfetch & _ & _ & _ & Hd & _ & Hrect).
  - vm_compute. right. left.
  - injection Hc as <- <-. vm_compute in Hfetch. injection Hfetch as <-.
    split; [exact Hd|]. apply Hrect. repeat constructor.
Defined.
